(** * Two-point perspective editor: geometry, constrained dragging, layer stack

    A shallow embedding of [deepseek4.py].  Python [int] is [Z]; Python
    [float] (and [numpy.float64]) is the kernel's binary64 [float], so the
    definitions below run with [vm_compute] on the same bit patterns the
    interpreter produces.  A Python exception is [None] in the [option]
    monad.  [QPoint] carries two integers.  Pixel contents are not
    modelled: a [QImage] is its width and height. *)

From Stdlib Require Import ZArith Floats Lia String.
From stdpp Require Import base option list.

Set Warnings "-inexact-float".
Open Scope Z_scope.

(** ** Python numbers *)

Module PyFloat.

(** [float(n)] for an [int]: round to nearest, ties to even.  (Python
    raises [OverflowError] from 2^1024 on, where this gives infinity; the
    integers here are built from [QPoint] coordinates, which are C ints.) *)
Definition of_int (n : Z) : float :=
  SF2Prim (binary_normalize prec emax n 0 false).

(** [a / b] on two [int]s: the correctly rounded quotient of the exact
    integers (not of their conversions).  The callers guard [b = 0]. *)
Definition int_truediv (a b : Z) : float :=
  let s := xorb (a <? 0) (b <? 0) in
  match Z.abs a with
  | 0 => SF2Prim (S754_zero s)
  | ma =>
      let '(q, e, l) := SFdiv_core_binary prec emax ma 0 (Z.abs b) 0 in
      SF2Prim (binary_round_aux prec emax s q e l)
  end.

(** [int(f)]: truncation toward zero; raises on infinities and NaN. *)
Definition to_int (f : float) : option Z :=
  match Prim2SF f with
  | S754_zero _ => Some 0
  | S754_finite s m e => Some (cond_Zopp s (Z.shiftl (Zpos m) e))
  | S754_infinity _ | S754_nan => None
  end.

(** The builtins [min(a, b)] and [max(a, b)]: the second argument wins
    only when the comparison [b < a] (resp. [b > a]) is true. *)
Definition min (a b : float) : float := if (b <? a)%float then b else a.
Definition max (a b : float) : float := if (a <? b)%float then b else a.

(** [f != 0] *)
Definition nonzero (f : float) : bool := negb (f =? 0)%float.

(** [lo <= f <= hi], as the two comparisons. *)
Definition within (lo hi f : float) : Prop :=
  (lo <=? f)%float = true /\ (f <=? hi)%float = true.

End PyFloat.

(** Indexing as Python does it: a negative index counts from the end, an
    index out of range raises [IndexError]. *)
Definition py_index {A} (l : list A) (i : Z) : option nat :=
  let n := Z.of_nat (length l) in
  let j := if i <? 0 then i + n else i in
  if (0 <=? j) && (j <? n) then Some (Z.to_nat j) else None.

Definition py_getitem {A} (l : list A) (i : Z) : option A :=
  j ← py_index l i; l !! j.

Definition py_setitem {A} (l : list A) (i : Z) (v : A) : option (list A) :=
  j ← py_index l i; Some (<[j := v]> l).

(** ** Data model *)

Module QPoint.
Record t := mk { x : Z; y : Z }.
Definition sub (p q : t) : t := mk (x p - x q) (y p - y q).
End QPoint.
Abbreviation QPoint := QPoint.t.
Notation "'⟨' a ',' b '⟩'" := (QPoint.mk a b) (at level 0, a at level 99, b at level 99).

Record QImage := { width : Z; height : Z }.

(** [PerspectiveLayer.__init__].  [initial_vp1_distance] is not assigned by
    the constructor; the attribute appears when [toggle_layer_drag_mode]
    first stores it, hence the [option]. *)
Record PerspectiveLayer := {
  name : string;
  original_image : option QImage;
  warped_image : option QImage;
  visible : bool;
  points : list QPoint;
  warp_points : list QPoint;
  z_order : Z;
  opacity : float;
  selection_points : list QPoint;
  position : QPoint;
  source_vp : list QPoint;
  original_width : Z;
  original_height : Z;
  drag_offset : QPoint;
  layer_drag_mode : bool;
  layer_scale : float;
  layer_position : QPoint;
  drag_layer_image : option QImage;
  initial_center : QPoint;
  initial_vp2_distance : float;
  initial_vp1_distance : option float
}.

Definition new_layer (nm : string) : PerspectiveLayer := {|
  name := nm; original_image := None; warped_image := None; visible := true;
  points := []; warp_points := []; z_order := 0; opacity := 1%float;
  selection_points := []; position := ⟨0, 0⟩; source_vp := [];
  original_width := 0; original_height := 0; drag_offset := ⟨0, 0⟩;
  layer_drag_mode := false; layer_scale := 1%float; layer_position := ⟨0, 0⟩;
  drag_layer_image := None; initial_center := ⟨0, 0⟩;
  initial_vp2_distance := 1%float; initial_vp1_distance := None |}.

(** Attribute assignment [layer.f = v], one function per assigned field. *)
Definition set_warped_image v (l : PerspectiveLayer) : PerspectiveLayer :=
  {| name := name l; original_image := original_image l; warped_image := v;
     visible := visible l; points := points l; warp_points := warp_points l;
     z_order := z_order l; opacity := opacity l;
     selection_points := selection_points l; position := position l;
     source_vp := source_vp l; original_width := original_width l;
     original_height := original_height l; drag_offset := drag_offset l;
     layer_drag_mode := layer_drag_mode l; layer_scale := layer_scale l;
     layer_position := layer_position l; drag_layer_image := drag_layer_image l;
     initial_center := initial_center l;
     initial_vp2_distance := initial_vp2_distance l;
     initial_vp1_distance := initial_vp1_distance l |}.
Definition set_points v (l : PerspectiveLayer) : PerspectiveLayer :=
  {| name := name l; original_image := original_image l;
     warped_image := warped_image l; visible := visible l; points := v;
     warp_points := warp_points l; z_order := z_order l; opacity := opacity l;
     selection_points := selection_points l; position := position l;
     source_vp := source_vp l; original_width := original_width l;
     original_height := original_height l; drag_offset := drag_offset l;
     layer_drag_mode := layer_drag_mode l; layer_scale := layer_scale l;
     layer_position := layer_position l; drag_layer_image := drag_layer_image l;
     initial_center := initial_center l;
     initial_vp2_distance := initial_vp2_distance l;
     initial_vp1_distance := initial_vp1_distance l |}.
Definition set_warp_points v (l : PerspectiveLayer) : PerspectiveLayer :=
  {| name := name l; original_image := original_image l;
     warped_image := warped_image l; visible := visible l; points := points l;
     warp_points := v; z_order := z_order l; opacity := opacity l;
     selection_points := selection_points l; position := position l;
     source_vp := source_vp l; original_width := original_width l;
     original_height := original_height l; drag_offset := drag_offset l;
     layer_drag_mode := layer_drag_mode l; layer_scale := layer_scale l;
     layer_position := layer_position l; drag_layer_image := drag_layer_image l;
     initial_center := initial_center l;
     initial_vp2_distance := initial_vp2_distance l;
     initial_vp1_distance := initial_vp1_distance l |}.
Definition set_z_order v (l : PerspectiveLayer) : PerspectiveLayer :=
  {| name := name l; original_image := original_image l;
     warped_image := warped_image l; visible := visible l; points := points l;
     warp_points := warp_points l; z_order := v; opacity := opacity l;
     selection_points := selection_points l; position := position l;
     source_vp := source_vp l; original_width := original_width l;
     original_height := original_height l; drag_offset := drag_offset l;
     layer_drag_mode := layer_drag_mode l; layer_scale := layer_scale l;
     layer_position := layer_position l; drag_layer_image := drag_layer_image l;
     initial_center := initial_center l;
     initial_vp2_distance := initial_vp2_distance l;
     initial_vp1_distance := initial_vp1_distance l |}.
Definition set_selection_points v (l : PerspectiveLayer) : PerspectiveLayer :=
  {| name := name l; original_image := original_image l;
     warped_image := warped_image l; visible := visible l; points := points l;
     warp_points := warp_points l; z_order := z_order l; opacity := opacity l;
     selection_points := v; position := position l; source_vp := source_vp l;
     original_width := original_width l; original_height := original_height l;
     drag_offset := drag_offset l; layer_drag_mode := layer_drag_mode l;
     layer_scale := layer_scale l; layer_position := layer_position l;
     drag_layer_image := drag_layer_image l; initial_center := initial_center l;
     initial_vp2_distance := initial_vp2_distance l;
     initial_vp1_distance := initial_vp1_distance l |}.
Definition set_position v (l : PerspectiveLayer) : PerspectiveLayer :=
  {| name := name l; original_image := original_image l;
     warped_image := warped_image l; visible := visible l; points := points l;
     warp_points := warp_points l; z_order := z_order l; opacity := opacity l;
     selection_points := selection_points l; position := v;
     source_vp := source_vp l; original_width := original_width l;
     original_height := original_height l; drag_offset := drag_offset l;
     layer_drag_mode := layer_drag_mode l; layer_scale := layer_scale l;
     layer_position := layer_position l; drag_layer_image := drag_layer_image l;
     initial_center := initial_center l;
     initial_vp2_distance := initial_vp2_distance l;
     initial_vp1_distance := initial_vp1_distance l |}.
Definition set_drag_offset v (l : PerspectiveLayer) : PerspectiveLayer :=
  {| name := name l; original_image := original_image l;
     warped_image := warped_image l; visible := visible l; points := points l;
     warp_points := warp_points l; z_order := z_order l; opacity := opacity l;
     selection_points := selection_points l; position := position l;
     source_vp := source_vp l; original_width := original_width l;
     original_height := original_height l; drag_offset := v;
     layer_drag_mode := layer_drag_mode l; layer_scale := layer_scale l;
     layer_position := layer_position l; drag_layer_image := drag_layer_image l;
     initial_center := initial_center l;
     initial_vp2_distance := initial_vp2_distance l;
     initial_vp1_distance := initial_vp1_distance l |}.
Definition set_layer_drag_mode v (l : PerspectiveLayer) : PerspectiveLayer :=
  {| name := name l; original_image := original_image l;
     warped_image := warped_image l; visible := visible l; points := points l;
     warp_points := warp_points l; z_order := z_order l; opacity := opacity l;
     selection_points := selection_points l; position := position l;
     source_vp := source_vp l; original_width := original_width l;
     original_height := original_height l; drag_offset := drag_offset l;
     layer_drag_mode := v; layer_scale := layer_scale l;
     layer_position := layer_position l; drag_layer_image := drag_layer_image l;
     initial_center := initial_center l;
     initial_vp2_distance := initial_vp2_distance l;
     initial_vp1_distance := initial_vp1_distance l |}.
Definition set_layer_scale v (l : PerspectiveLayer) : PerspectiveLayer :=
  {| name := name l; original_image := original_image l;
     warped_image := warped_image l; visible := visible l; points := points l;
     warp_points := warp_points l; z_order := z_order l; opacity := opacity l;
     selection_points := selection_points l; position := position l;
     source_vp := source_vp l; original_width := original_width l;
     original_height := original_height l; drag_offset := drag_offset l;
     layer_drag_mode := layer_drag_mode l; layer_scale := v;
     layer_position := layer_position l; drag_layer_image := drag_layer_image l;
     initial_center := initial_center l;
     initial_vp2_distance := initial_vp2_distance l;
     initial_vp1_distance := initial_vp1_distance l |}.
Definition set_layer_position v (l : PerspectiveLayer) : PerspectiveLayer :=
  {| name := name l; original_image := original_image l;
     warped_image := warped_image l; visible := visible l; points := points l;
     warp_points := warp_points l; z_order := z_order l; opacity := opacity l;
     selection_points := selection_points l; position := position l;
     source_vp := source_vp l; original_width := original_width l;
     original_height := original_height l; drag_offset := drag_offset l;
     layer_drag_mode := layer_drag_mode l; layer_scale := layer_scale l;
     layer_position := v; drag_layer_image := drag_layer_image l;
     initial_center := initial_center l;
     initial_vp2_distance := initial_vp2_distance l;
     initial_vp1_distance := initial_vp1_distance l |}.
Definition set_drag_layer_image v (l : PerspectiveLayer) : PerspectiveLayer :=
  {| name := name l; original_image := original_image l;
     warped_image := warped_image l; visible := visible l; points := points l;
     warp_points := warp_points l; z_order := z_order l; opacity := opacity l;
     selection_points := selection_points l; position := position l;
     source_vp := source_vp l; original_width := original_width l;
     original_height := original_height l; drag_offset := drag_offset l;
     layer_drag_mode := layer_drag_mode l; layer_scale := layer_scale l;
     layer_position := layer_position l; drag_layer_image := v;
     initial_center := initial_center l;
     initial_vp2_distance := initial_vp2_distance l;
     initial_vp1_distance := initial_vp1_distance l |}.
Definition set_initial_center v (l : PerspectiveLayer) : PerspectiveLayer :=
  {| name := name l; original_image := original_image l;
     warped_image := warped_image l; visible := visible l; points := points l;
     warp_points := warp_points l; z_order := z_order l; opacity := opacity l;
     selection_points := selection_points l; position := position l;
     source_vp := source_vp l; original_width := original_width l;
     original_height := original_height l; drag_offset := drag_offset l;
     layer_drag_mode := layer_drag_mode l; layer_scale := layer_scale l;
     layer_position := layer_position l; drag_layer_image := drag_layer_image l;
     initial_center := v; initial_vp2_distance := initial_vp2_distance l;
     initial_vp1_distance := initial_vp1_distance l |}.
Definition set_initial_vp2_distance v (l : PerspectiveLayer) : PerspectiveLayer :=
  {| name := name l; original_image := original_image l;
     warped_image := warped_image l; visible := visible l; points := points l;
     warp_points := warp_points l; z_order := z_order l; opacity := opacity l;
     selection_points := selection_points l; position := position l;
     source_vp := source_vp l; original_width := original_width l;
     original_height := original_height l; drag_offset := drag_offset l;
     layer_drag_mode := layer_drag_mode l; layer_scale := layer_scale l;
     layer_position := layer_position l; drag_layer_image := drag_layer_image l;
     initial_center := initial_center l; initial_vp2_distance := v;
     initial_vp1_distance := initial_vp1_distance l |}.
Definition set_initial_vp1_distance v (l : PerspectiveLayer) : PerspectiveLayer :=
  {| name := name l; original_image := original_image l;
     warped_image := warped_image l; visible := visible l; points := points l;
     warp_points := warp_points l; z_order := z_order l; opacity := opacity l;
     selection_points := selection_points l; position := position l;
     source_vp := source_vp l; original_width := original_width l;
     original_height := original_height l; drag_offset := drag_offset l;
     layer_drag_mode := layer_drag_mode l; layer_scale := layer_scale l;
     layer_position := layer_position l; drag_layer_image := drag_layer_image l;
     initial_center := initial_center l;
     initial_vp2_distance := initial_vp2_distance l; initial_vp1_distance := v |}.

(** [PerspectiveGrid.__init__] (the colour is presentation only). *)
Record PerspectiveGrid := {
  vanishing_points : list QPoint;
  grid_size : Z;
  line_count : Z;
  enabled : bool;
  primary_vp : list QPoint
}.

Definition set_primary_vp v (g : PerspectiveGrid) : PerspectiveGrid :=
  {| vanishing_points := vanishing_points g; grid_size := grid_size g;
     line_count := line_count g; enabled := enabled g; primary_vp := v |}.

(** [Canvas.__init__].  [pixmap] is [None] while the pixmap is null. *)
Record Canvas := {
  pixmap : option QImage;
  scale_factor : float;
  offset : QPoint;
  dragging_view : bool;
  last_drag_pos : QPoint;
  dragging_point : Z;
  dragging_edge : Z;
  dragging_layer : Z;
  edge_drag_offset : QPoint
}.

Definition set_scale_factor v (c : Canvas) : Canvas :=
  {| pixmap := pixmap c; scale_factor := v; offset := offset c;
     dragging_view := dragging_view c; last_drag_pos := last_drag_pos c;
     dragging_point := dragging_point c; dragging_edge := dragging_edge c;
     dragging_layer := dragging_layer c; edge_drag_offset := edge_drag_offset c |}.

(** [VanishingPointEditor]: the window owns the layer list, the grid and the
    canvas; the canvas reaches them through [self.parent]. *)
Record VanishingPointEditor := {
  layers : list PerspectiveLayer;
  current_layer_idx : Z;
  grid : PerspectiveGrid;
  control_point_mode : bool;
  canvas : Canvas
}.

Definition set_layers v (ed : VanishingPointEditor) : VanishingPointEditor :=
  {| layers := v; current_layer_idx := current_layer_idx ed; grid := grid ed;
     control_point_mode := control_point_mode ed; canvas := canvas ed |}.
Definition set_current_layer_idx v (ed : VanishingPointEditor) : VanishingPointEditor :=
  {| layers := layers ed; current_layer_idx := v; grid := grid ed;
     control_point_mode := control_point_mode ed; canvas := canvas ed |}.
Definition set_grid v (ed : VanishingPointEditor) : VanishingPointEditor :=
  {| layers := layers ed; current_layer_idx := current_layer_idx ed; grid := v;
     control_point_mode := control_point_mode ed; canvas := canvas ed |}.
Definition set_canvas v (ed : VanishingPointEditor) : VanishingPointEditor :=
  {| layers := layers ed; current_layer_idx := current_layer_idx ed; grid := grid ed;
     control_point_mode := control_point_mode ed; canvas := v |}.

(** ** Line intersection, shared arithmetic

    Both [line_intersection] methods compute the same denominator, the same
    parameter [t] and the same truncated point; they differ in what they
    return for parallel lines. *)

Definition den_of (a1 a2 b1 b2 : QPoint) : Z :=
  (QPoint.x a1 - QPoint.x a2) * (QPoint.y b1 - QPoint.y b2)
  - (QPoint.y a1 - QPoint.y a2) * (QPoint.x b1 - QPoint.x b2).

Definition t_num_of (a1 b1 b2 : QPoint) : Z :=
  (QPoint.x a1 - QPoint.x b1) * (QPoint.y b1 - QPoint.y b2)
  - (QPoint.y a1 - QPoint.y b1) * (QPoint.x b1 - QPoint.x b2).

(** [QPoint(int(fx), int(fy))] *)
Definition qpoint_of_floats (fx fy : float) : option QPoint :=
  ix ← PyFloat.to_int fx; iy ← PyFloat.to_int fy; Some ⟨ix, iy⟩.

(** [t = t_num / den; x = x1 + t * (x2 - x1); y = y1 + t * (y2 - y1)] *)
Definition intersection_point (a1 a2 b1 b2 : QPoint) : option QPoint :=
  let t := PyFloat.int_truediv (t_num_of a1 b1 b2) (den_of a1 a2 b1 b2) in
  let fx := (PyFloat.of_int (QPoint.x a1)
             + t * PyFloat.of_int (QPoint.x a2 - QPoint.x a1))%float in
  let fy := (PyFloat.of_int (QPoint.y a1)
             + t * PyFloat.of_int (QPoint.y a2 - QPoint.y a1))%float in
  qpoint_of_floats fx fy.

(** ** PerspectiveGrid *)

Module GridOps.

(** [PerspectiveGrid.line_intersection] *)
Definition line_intersection (a1 a2 b1 b2 : QPoint) : option QPoint :=
  if den_of a1 a2 b1 b2 =? 0 then Some ⟨10000, 10000⟩
  else intersection_point a1 a2 b1 b2.

(** [not (abs(vp.x()) < 10 and abs(vp.y()) < 10)] *)
Definition valid_vp (vp : QPoint) : bool :=
  negb ((Z.abs (QPoint.x vp) <? 10) && (Z.abs (QPoint.y vp) <? 10)).

(** [PerspectiveGrid.calculate_two_point_perspective]: the returned list
    and the grid after the call ([primary_vp] is assigned only on the
    four-point path). *)
Definition calculate_two_point_perspective (g : PerspectiveGrid)
    (pts : list QPoint) : option (list QPoint * PerspectiveGrid) :=
  match pts with
  | [p1; p2; p3; p4] =>
      vp1 ← line_intersection p1 p2 p3 p4;
      vp2 ← line_intersection p2 p3 p4 p1;
      let r := if valid_vp vp1 && valid_vp vp2 then [vp1; vp2] else [] in
      Some (r, set_primary_vp r g)
  | _ => Some ([], g)
  end.

(** [PerspectiveGrid.calculate_radial_lines] *)
Definition calculate_radial_lines (vp : QPoint) (control_points : list QPoint)
    : list (QPoint * QPoint) :=
  map (fun pt => (⟨QPoint.x vp, QPoint.y vp⟩, pt)) control_points.

End GridOps.

(** ** Sorting and extrema as the builtins compute them *)

(** An insertion sort by key that keeps the input order of equal keys, as
    [sorted(l, key=...)] does.  ([numpy.argsort] promises an ordering by
    key only; its choice among equal keys is taken to be this one.) *)
Section SortBy.
Context {A K : Type} (lt : K -> K -> bool) (key : A -> K).

Fixpoint insert_by (a : A) (l : list A) : list A :=
  match l with
  | [] => [a]
  | b :: l' => if lt (key b) (key a) then b :: insert_by a l' else a :: b :: l'
  end.

Definition sort_by (l : list A) : list A := foldr insert_by [] l.
End SortBy.

(** [min(...)] and [max(...)] over a generator of [int]s; both raise on an
    empty one. *)
Definition py_min_list (l : list Z) : option Z :=
  match l with [] => None | a :: l' => Some (foldl Z.min a l') end.
Definition py_max_list (l : list Z) : option Z :=
  match l with [] => None | a :: l' => Some (foldl Z.max a l') end.

(** ** VanishingPointEditor: layer stack and points *)

Module EditorOps.

(** [get_current_layer] *)
Definition get_current_layer (ed : VanishingPointEditor) : option PerspectiveLayer :=
  let i := current_layer_idx ed in
  if (0 <=? i) && (i <? Z.of_nat (length (layers ed)))
  then layers ed !! Z.to_nat i else None.

(** Writing through the reference held in [self.layers[i]]. *)
Definition store_layer (i : nat) (l : PerspectiveLayer) (ed : VanishingPointEditor)
    : VanishingPointEditor :=
  set_layers (<[i := l]> (layers ed)) ed.

(** [add_layer], with the name already resolved by the dialog. *)
Definition add_layer (nm : string) (ed : VanishingPointEditor) : VanishingPointEditor :=
  let l := set_z_order (Z.of_nat (length (layers ed))) (new_layer nm) in
  let ls := layers ed ++ [l] in
  set_current_layer_idx (Z.of_nat (length ls) - 1) (set_layers ls ed).

(** [layer.z_order += d] *)
Definition bump_z_order (d : Z) (l : PerspectiveLayer) : PerspectiveLayer :=
  set_z_order (z_order l + d) l.

(** [ls[i], ls[j] = ls[j], ls[i]] *)
Definition swap_items {A} (i j : nat) (ls : list A) : list A :=
  match ls !! i, ls !! j with
  | Some a, Some b => <[j := a]> (<[i := b]> ls)
  | _, _ => ls
  end.

(** [move_layer_up] *)
Definition move_layer_up (ed : VanishingPointEditor) : VanishingPointEditor :=
  let i := current_layer_idx ed in
  if (0 <=? i) && (i <? Z.of_nat (length (layers ed)) - 1) then
    let n := Z.to_nat i in
    let ls := alter (bump_z_order 1) n (layers ed) in
    let ls := alter (bump_z_order (-1)) (S n) ls in
    let ls := swap_items n (S n) ls in
    set_current_layer_idx (i + 1) (set_layers ls ed)
  else ed.

(** [move_layer_down] *)
Definition move_layer_down (ed : VanishingPointEditor) : VanishingPointEditor :=
  let i := current_layer_idx ed in
  if (0 <? i) && (i <? Z.of_nat (length (layers ed))) then
    let n := Z.to_nat i in
    let ls := alter (bump_z_order (-1)) n (layers ed) in
    let ls := alter (bump_z_order 1) (pred n) ls in
    let ls := swap_items n (pred n) ls in
    set_current_layer_idx (i - 1) (set_layers ls ed)
  else ed.

(** [select_layer]: the row of the clicked item. *)
Definition select_layer (row : Z) (ed : VanishingPointEditor) : VanishingPointEditor :=
  set_current_layer_idx row ed.

(** [clear_points] *)
Definition clear_points (ed : VanishingPointEditor) : VanishingPointEditor :=
  match get_current_layer ed with
  | Some l =>
      let l' := set_selection_points [] (set_points [] l) in
      set_grid (set_primary_vp [] (grid ed))
        (store_layer (Z.to_nat (current_layer_idx ed)) l' ed)
  | None => ed
  end.

(** [calculate_vanishing_points] (the message boxes are not modelled). *)
Definition calculate_vanishing_points (ed : VanishingPointEditor)
    : option VanishingPointEditor :=
  match get_current_layer ed with
  | Some l =>
      if length (points l) =? 4 then
        '(_, g) ← GridOps.calculate_two_point_perspective (grid ed) (points l);
        Some (set_grid g ed)
      else Some ed
  | None => Some ed
  end%nat.

(** [apply_perspective_to_layer], by its effect on the layer: the
    resampled image is as large as the bounding box of the four warp
    points (at least one pixel each way) and the layer is positioned at
    the box origin.  (The box is read back from a float32 array, which is
    exact below 2^24.) *)
Definition apply_perspective_to_layer (l : PerspectiveLayer) : PerspectiveLayer :=
  match original_image l, warp_points l with
  | Some _, [_; _; _; _] =>
      let xs := map QPoint.x (warp_points l) in
      let ys := map QPoint.y (warp_points l) in
      match py_min_list xs, py_min_list ys, py_max_list xs, py_max_list ys with
      | Some min_x, Some min_y, Some max_x, Some max_y =>
          let img := {| width := Z.max 1 (max_x - min_x);
                        height := Z.max 1 (max_y - min_y) |} in
          set_position ⟨min_x, min_y⟩ (set_warped_image (Some img) l)
      | _, _, _, _ => l
      end
  | _, _ => l
  end.

(** [draw_layers]: the layers painted, in painting order. *)
Definition draw_layers (ed : VanishingPointEditor) : list PerspectiveLayer :=
  filter (fun l => visible l = true) (sort_by Z.ltb z_order (layers ed)).

End EditorOps.

(** ** Canvas: geometry, dragging, zoom *)

Module CanvasOps.

(** [Canvas.line_intersection], the variant used while a corner is
    dragged. *)
Definition line_intersection (a1 a2 b1 b2 : QPoint) : option QPoint :=
  if den_of a1 a2 b1 b2 =? 0 then Some ⟨QPoint.x a2, QPoint.y a2⟩
  else intersection_point a1 a2 b1 b2.

(** [get_point_along_line] *)
Definition get_point_along_line (start end_ : QPoint) (length : Z) : option QPoint :=
  let dx := QPoint.x end_ - QPoint.x start in
  let dy := QPoint.y end_ - QPoint.y start in
  if (dx =? 0) && (dy =? 0) then Some end_
  else
    let dist := sqrt (PyFloat.of_int (dx ^ 2 + dy ^ 2)) in
    if (dist =? 0)%float then Some end_
    else
      let ratio := (PyFloat.of_int length / dist)%float in
      qpoint_of_floats
        (PyFloat.of_int (QPoint.x end_) + PyFloat.of_int dx * ratio)%float
        (PyFloat.of_int (QPoint.y end_) + PyFloat.of_int dy * ratio)%float.

(** [distance_point_to_line] *)
Definition distance_point_to_line (point line_start line_end : QPoint) : float :=
  let a := QPoint.y line_end - QPoint.y line_start in
  let b := QPoint.x line_start - QPoint.x line_end in
  let c := QPoint.x line_end * QPoint.y line_start
           - QPoint.x line_start * QPoint.y line_end in
  if 0 <? a ^ 2 + b ^ 2 then
    (PyFloat.of_int (Z.abs (a * QPoint.x point + b * QPoint.y point + c))
     / sqrt (PyFloat.of_int (a ^ 2 + b ^ 2)))%float
  else infinity.

(** [transform_pos] *)
Definition transform_pos (c : Canvas) (pos : QPoint) : option QPoint :=
  if (scale_factor c =? 0)%float then None
  else
    qpoint_of_floats
      (PyFloat.of_int (QPoint.x pos - QPoint.x (offset c)) / scale_factor c)%float
      (PyFloat.of_int (QPoint.y pos - QPoint.y (offset c)) / scale_factor c)%float.

(** The perspective-constrained corner update of [mouseMoveEvent]: the
    dragged corner is stored first, then the two adjacent corners, then
    the diagonal one. *)
Definition constrain_warp_points (vp1 vp2 : QPoint) (w h : Z)
    (wp : list QPoint) (drag_idx : Z) (scene_pos : QPoint) : option (list QPoint) :=
  wp ← py_setitem wp drag_idx scene_pos;
  if drag_idx =? 0 then
    p1 ← py_getitem wp 0;
    p2 ← get_point_along_line vp1 p1 w;
    wp ← py_setitem wp 1 p2;
    p3 ← get_point_along_line vp2 p1 h;
    wp ← py_setitem wp 3 p3;
    q ← line_intersection p2 vp2 p3 vp1;
    py_setitem wp 2 q
  else if drag_idx =? 1 then
    p2 ← py_getitem wp 1;
    p1 ← get_point_along_line vp1 p2 (- w);
    wp ← py_setitem wp 0 p1;
    p3 ← get_point_along_line vp2 p2 h;
    wp ← py_setitem wp 2 p3;
    q ← line_intersection p1 vp2 p3 vp1;
    py_setitem wp 3 q
  else if drag_idx =? 2 then
    p3 ← py_getitem wp 2;
    p4 ← get_point_along_line vp1 p3 (- w);
    wp ← py_setitem wp 3 p4;
    p2 ← get_point_along_line vp2 p3 (- h);
    wp ← py_setitem wp 1 p2;
    q ← line_intersection p2 vp1 p4 vp2;
    py_setitem wp 0 q
  else if drag_idx =? 3 then
    p4 ← py_getitem wp 3;
    p3 ← get_point_along_line vp1 p4 w;
    wp ← py_setitem wp 2 p3;
    p1 ← get_point_along_line vp2 p4 (- h);
    wp ← py_setitem wp 0 p1;
    q ← line_intersection p1 vp1 p3 vp2;
    py_setitem wp 1 q
  else Some wp.

(** The corner-drag branch for a layer that carries warp points and
    source vanishing points: [vp1, vp2 = source_vp[:2]] needs two of
    them. *)
Definition drag_warp_point (l : PerspectiveLayer) (drag_idx : Z) (scene_pos : QPoint)
    : option PerspectiveLayer :=
  match source_vp l with
  | vp1 :: vp2 :: _ =>
      wp ← constrain_warp_points vp1 vp2 (original_width l) (original_height l)
             (warp_points l) drag_idx scene_pos;
      Some (EditorOps.apply_perspective_to_layer (set_warp_points wp l))
  | _ => None
  end.

(** [sqrt(dx * dx + dy * dy)] from [c] to [vp] *)
Definition distance_to (c vp : QPoint) : float :=
  let dx := QPoint.x c - QPoint.x vp in
  let dy := QPoint.y c - QPoint.y vp in
  sqrt (PyFloat.of_int (dx * dx + dy * dy)).

(** [max(0.1, min(s, hi))] *)
Definition clamp_scale (hi s : float) : float :=
  PyFloat.max 0.1 (PyFloat.min s hi).

(** The C library's [atan2] and OpenCV's resampling are outside the
    program: [atan2] is any function on doubles, and [extract_quad pix
    quad w h] is the image cut out of a loaded pixmap for the sorted quad
    and its bounding-box size, [None] when the pipeline raises. *)
Section External.
Variable atan2 : float -> float -> float.
Variable extract_quad : QImage -> list QPoint -> Z -> Z -> option QImage.

(** [atan2(det, dot)] of two integer vectors *)
Definition angle_between (va vb : QPoint) : float :=
  let dot := QPoint.x va * QPoint.x vb + QPoint.y va * QPoint.y vb in
  let det := QPoint.x va * QPoint.y vb - QPoint.y va * QPoint.x vb in
  atan2 (PyFloat.of_int det) (PyFloat.of_int dot).

(** The ratio [mouseMoveEvent] derives before clamping: the vanishing
    point at the smaller absolute angle from the drag direction is
    chosen ([vp2] on a tie), and a zero baseline distance gives 1.0.
    Reading [initial_vp1_distance] before it was ever stored raises. *)
Definition drag_scale_ratio (vp1 vp2 : QPoint) (l : PerspectiveLayer) : option float :=
  let current_center := layer_position l in
  let current_vp1_distance := distance_to current_center vp1 in
  let current_vp2_distance := distance_to current_center vp2 in
  let vector_A := QPoint.sub current_center (initial_center l) in
  let vector_B1 := QPoint.sub vp1 (initial_center l) in
  let vector_B2 := QPoint.sub vp2 (initial_center l) in
  let angle1_abs := abs (angle_between vector_A vector_B1) in
  let angle2_abs := abs (angle_between vector_A vector_B2) in
  if (angle1_abs <? angle2_abs)%float then
    d1 ← initial_vp1_distance l;
    Some (if PyFloat.nonzero d1 then (current_vp1_distance / d1)%float else 1%float)
  else
    let d2 := initial_vp2_distance l in
    Some (if PyFloat.nonzero d2 then (current_vp2_distance / d2)%float else 1%float).

(** The layer-drag branch of [mouseMoveEvent] on one layer. *)
Definition drag_layer_step (g : PerspectiveGrid) (scene_pos : QPoint)
    (l : PerspectiveLayer) : option PerspectiveLayer :=
  let target := ⟨QPoint.x scene_pos - QPoint.x (drag_offset l),
                 QPoint.y scene_pos - QPoint.y (drag_offset l)⟩ in
  if layer_drag_mode l && bool_decide (is_Some (drag_layer_image l)) then
    let l := set_layer_position target l in
    match primary_vp g with
    | vp1 :: vp2 :: _ =>
        r ← drag_scale_ratio vp1 vp2 l;
        Some (set_layer_scale (clamp_scale 2 r) l)
    | _ => Some l
    end
  else Some (set_position target l).

(** [sort_points]: the four points by angle around their centroid.
    NumPy orders NaN after every number. *)
Definition np_lt (a b : float) : bool :=
  (a <? b)%float || (is_nan b && negb (is_nan a)).

Definition sum_list (l : list Z) : Z := foldl Z.add 0 l.

Definition sort_points (pts : list QPoint) : list QPoint :=
  let center_x := PyFloat.int_truediv (sum_list (map QPoint.x pts)) 4 in
  let center_y := PyFloat.int_truediv (sum_list (map QPoint.y pts)) 4 in
  sort_by np_lt
    (fun p => atan2 (PyFloat.of_int (QPoint.y p) - center_y)%float
                    (PyFloat.of_int (QPoint.x p) - center_x)%float) pts.

(** [copy_selection_to_drag_layer].  Everything after the length test
    runs under [try]; any exception leaves the drag image absent, and a
    null pixmap has no pixel buffer to read, which is one. *)
Definition copy_selection_to_drag_layer (c : Canvas) (l : PerspectiveLayer)
    : PerspectiveLayer :=
  match selection_points l with
  | [_; _; _; _] =>
      let sorted_points := sort_points (selection_points l) in
      let xs := map QPoint.x sorted_points in
      let ys := map QPoint.y sorted_points in
      match py_min_list xs, py_max_list xs, py_min_list ys, py_max_list ys with
      | Some min_x, Some max_x, Some min_y, Some max_y =>
          let w := max_x - min_x in
          let h := max_y - min_y in
          if (w <=? 0) || (h <=? 0) then set_drag_layer_image None l
          else
            set_drag_layer_image
              (pix ← pixmap c; extract_quad pix sorted_points w h) l
      | _, _, _, _ => set_drag_layer_image None l
      end
  | _ => set_drag_layer_image None l
  end.

(** [Canvas.toggle_layer_drag_mode] (the message boxes are not
    modelled). *)
Definition toggle_layer_drag_mode (ed : VanishingPointEditor)
    : option VanishingPointEditor :=
  match EditorOps.get_current_layer ed with
  | None => Some ed
  | Some l =>
      if negb (length (selection_points l) =? 4)%nat then Some ed
      else
        let l := set_layer_drag_mode (negb (layer_drag_mode l)) l in
        l ← (if layer_drag_mode l then
               let l := copy_selection_to_drag_layer (canvas ed) l in
               match drag_layer_image l with
               | Some _ =>
                   l ← (if (length (selection_points l) =? 4)%nat then
                          let sel := selection_points l in
                          c ← qpoint_of_floats
                                (PyFloat.int_truediv (sum_list (map QPoint.x sel)) 4)
                                (PyFloat.int_truediv (sum_list (map QPoint.y sel)) 4);
                          let l := set_initial_center c (set_layer_position c l) in
                          match primary_vp (grid ed) with
                          | vp1 :: vp2 :: _ =>
                              Some (set_initial_vp2_distance (distance_to c vp2)
                                      (set_initial_vp1_distance
                                         (Some (distance_to c vp1)) l))
                          | _ =>
                              Some (set_initial_vp2_distance 1%float
                                      (set_initial_vp1_distance (Some 1%float) l))
                          end
                        else
                          Some (set_initial_vp2_distance 1%float
                                  (set_initial_center ⟨0, 0⟩
                                     (set_layer_position ⟨0, 0⟩ l))));
                   Some (set_layer_scale 1%float l)
               | None => Some (set_layer_drag_mode false l)
               end
             else Some l);
        Some (EditorOps.store_layer (Z.to_nat (current_layer_idx ed)) l ed)
  end.

(** [wheelEvent], from the sign of [angleDelta().y()]. *)
Definition wheel_factor (delta_y : Z) : float :=
  if 0 <? delta_y then 1.1%float else 0.9%float.

Definition wheelEvent (delta_y : Z) (ed : VanishingPointEditor) : VanishingPointEditor :=
  let zoom_view :=
    set_canvas
      (set_scale_factor
         (clamp_scale 5 (scale_factor (canvas ed) * wheel_factor delta_y)%float)
         (canvas ed)) ed in
  match EditorOps.get_current_layer ed with
  | Some l =>
      if layer_drag_mode l && bool_decide (is_Some (drag_layer_image l)) then
        EditorOps.store_layer (Z.to_nat (current_layer_idx ed))
          (set_layer_scale
             (clamp_scale 5 (layer_scale l * wheel_factor delta_y)%float) l) ed
      else zoom_view
  | None => zoom_view
  end.

(** The corner-drag branch of [mouseMoveEvent], in the order of its
    [if]/[elif] chain. *)
Definition drag_vertex (g : PerspectiveGrid) (dp : Z) (scene_pos : QPoint)
    (l : PerspectiveLayer) : option (PerspectiveLayer * PerspectiveGrid) :=
  if (4 <=? length (warp_points l))%nat && bool_decide (source_vp l ≠ []) then
    l ← drag_warp_point l dp scene_pos; Some (l, g)
  else if (4 <=? length (selection_points l))%nat then
    sel ← py_setitem (selection_points l) dp scene_pos;
    pts ← (if dp <? Z.of_nat (length (points l))
           then py_setitem (points l) dp scene_pos else Some (points l));
    Some (set_points pts (set_selection_points sel l), g)
  else if (0 <? length (points l))%nat then
    pts ← py_setitem (points l) dp scene_pos;
    sel ← (if dp <? Z.of_nat (length (selection_points l))
           then py_setitem (selection_points l) dp scene_pos
           else Some (selection_points l));
    g ← (if (length pts =? 4)%nat
         then snd <$> GridOps.calculate_two_point_perspective g pts else Some g);
    Some (set_selection_points sel (set_points pts l), g)
  else Some (l, g).

(** The edge-drag branch of [mouseMoveEvent]. *)
Definition drag_edge (g : PerspectiveGrid) (edge_off : QPoint) (de : Z)
    (scene_pos : QPoint) (l : PerspectiveLayer)
    : option (PerspectiveLayer * PerspectiveGrid) :=
  let idx1 := de in
  let idx2 := (de + 1) mod 4 in
  let target_pos := QPoint.sub scene_pos edge_off in
  p1 ← py_getitem (selection_points l) idx1;
  p2 ← py_getitem (selection_points l) idx2;
  let dx := QPoint.x p2 - QPoint.x p1 in
  let dy := QPoint.y p2 - QPoint.y p1 in
  let perp_dx := dy in
  let perp_dy := - dx in
  let '(fdx, fdy) :=
    if negb (perp_dx =? 0) || negb (perp_dy =? 0) then
      let len := sqrt (PyFloat.of_int (perp_dx ^ 2 + perp_dy ^ 2)) in
      ((PyFloat.of_int perp_dx / len)%float, (PyFloat.of_int perp_dy / len)%float)
    else (PyFloat.of_int perp_dx, PyFloat.of_int perp_dy) in
  let dist := distance_point_to_line target_pos p1 p2 in
  move_x ← PyFloat.to_int (fdx * dist)%float;
  move_y ← PyFloat.to_int (fdy * dist)%float;
  let q1 := ⟨QPoint.x p1 + move_x, QPoint.y p1 + move_y⟩ in
  let q2 := ⟨QPoint.x p2 + move_x, QPoint.y p2 + move_y⟩ in
  sel ← py_setitem (selection_points l) idx1 q1;
  sel ← py_setitem sel idx2 q2;
  pts ← (if idx1 <? Z.of_nat (length (points l))
         then py_setitem (points l) idx1 q1 else Some (points l));
  pts ← (if idx2 <? Z.of_nat (length pts)
         then py_setitem pts idx2 q2 else Some pts);
  g ← (if (length pts =? 4)%nat
       then snd <$> GridOps.calculate_two_point_perspective g pts else Some g);
  Some (set_points pts (set_selection_points sel l), g).

(** [mouseMoveEvent] *)
Definition mouseMoveEvent (event_pos : QPoint) (ed : VanishingPointEditor)
    : option VanishingPointEditor :=
  match EditorOps.get_current_layer ed with
  | None => Some ed
  | Some cur =>
      scene_pos ← transform_pos (canvas ed) event_pos;
      let c := canvas ed in
      let here := Z.to_nat (current_layer_idx ed) in
      if dragging_view c then
        if negb (dragging_point c =? -1) then
          '(l, g) ← drag_vertex (grid ed) (dragging_point c) scene_pos cur;
          Some (set_grid g (EditorOps.store_layer here l ed))
        else if negb (dragging_edge c =? -1) then
          '(l, g) ← drag_edge (grid ed) (edge_drag_offset c) (dragging_edge c)
                      scene_pos cur;
          Some (set_grid g (EditorOps.store_layer here l ed))
        else if negb (dragging_layer c =? -1) then
          i ← py_index (layers ed) (dragging_layer c);
          l ← layers ed !! i;
          l ← drag_layer_step (grid ed) scene_pos l;
          Some (EditorOps.store_layer i l ed)
        else Some ed
      else Some ed
  end.

(** [draw_grid]: the line segments drawn. *)
Definition draw_grid (ed : VanishingPointEditor) : list (QPoint * QPoint) :=
  match EditorOps.get_current_layer ed with
  | Some l =>
      if (length (points l) <? 4)%nat then []
      else
        match primary_vp (grid ed) with
        | vp1 :: vp2 :: _ =>
            GridOps.calculate_radial_lines vp1 (points l)
            ++ GridOps.calculate_radial_lines vp2 (points l)
        | _ => []
        end
  | None => []
  end.

End External.

End CanvasOps.

(** ** Remaining attribute assignments *)

Definition set_original_image v (l : PerspectiveLayer) : PerspectiveLayer :=
  {| name := name l; original_image := v; warped_image := warped_image l;
     visible := visible l; points := points l; warp_points := warp_points l;
     z_order := z_order l; opacity := opacity l;
     selection_points := selection_points l; position := position l;
     source_vp := source_vp l; original_width := original_width l;
     original_height := original_height l; drag_offset := drag_offset l;
     layer_drag_mode := layer_drag_mode l; layer_scale := layer_scale l;
     layer_position := layer_position l; drag_layer_image := drag_layer_image l;
     initial_center := initial_center l;
     initial_vp2_distance := initial_vp2_distance l;
     initial_vp1_distance := initial_vp1_distance l |}.

Definition set_enabled v (g : PerspectiveGrid) : PerspectiveGrid :=
  {| vanishing_points := vanishing_points g; grid_size := grid_size g;
     line_count := line_count g; enabled := v; primary_vp := primary_vp g |}.
Definition set_line_count v (g : PerspectiveGrid) : PerspectiveGrid :=
  {| vanishing_points := vanishing_points g; grid_size := grid_size g;
     line_count := v; enabled := enabled g; primary_vp := primary_vp g |}.

Definition set_control_point_mode v (ed : VanishingPointEditor) : VanishingPointEditor :=
  {| layers := layers ed; current_layer_idx := current_layer_idx ed; grid := grid ed;
     control_point_mode := v; canvas := canvas ed |}.

Definition set_pixmap v (c : Canvas) : Canvas :=
  {| pixmap := v; scale_factor := scale_factor c; offset := offset c;
     dragging_view := dragging_view c; last_drag_pos := last_drag_pos c;
     dragging_point := dragging_point c; dragging_edge := dragging_edge c;
     dragging_layer := dragging_layer c; edge_drag_offset := edge_drag_offset c |}.
Definition set_dragging_view v (c : Canvas) : Canvas :=
  {| pixmap := pixmap c; scale_factor := scale_factor c; offset := offset c;
     dragging_view := v; last_drag_pos := last_drag_pos c;
     dragging_point := dragging_point c; dragging_edge := dragging_edge c;
     dragging_layer := dragging_layer c; edge_drag_offset := edge_drag_offset c |}.
Definition set_last_drag_pos v (c : Canvas) : Canvas :=
  {| pixmap := pixmap c; scale_factor := scale_factor c; offset := offset c;
     dragging_view := dragging_view c; last_drag_pos := v;
     dragging_point := dragging_point c; dragging_edge := dragging_edge c;
     dragging_layer := dragging_layer c; edge_drag_offset := edge_drag_offset c |}.
Definition set_dragging_point v (c : Canvas) : Canvas :=
  {| pixmap := pixmap c; scale_factor := scale_factor c; offset := offset c;
     dragging_view := dragging_view c; last_drag_pos := last_drag_pos c;
     dragging_point := v; dragging_edge := dragging_edge c;
     dragging_layer := dragging_layer c; edge_drag_offset := edge_drag_offset c |}.
Definition set_dragging_edge v (c : Canvas) : Canvas :=
  {| pixmap := pixmap c; scale_factor := scale_factor c; offset := offset c;
     dragging_view := dragging_view c; last_drag_pos := last_drag_pos c;
     dragging_point := dragging_point c; dragging_edge := v;
     dragging_layer := dragging_layer c; edge_drag_offset := edge_drag_offset c |}.
Definition set_dragging_layer v (c : Canvas) : Canvas :=
  {| pixmap := pixmap c; scale_factor := scale_factor c; offset := offset c;
     dragging_view := dragging_view c; last_drag_pos := last_drag_pos c;
     dragging_point := dragging_point c; dragging_edge := dragging_edge c;
     dragging_layer := v; edge_drag_offset := edge_drag_offset c |}.
Definition set_edge_drag_offset v (c : Canvas) : Canvas :=
  {| pixmap := pixmap c; scale_factor := scale_factor c; offset := offset c;
     dragging_view := dragging_view c; last_drag_pos := last_drag_pos c;
     dragging_point := dragging_point c; dragging_edge := dragging_edge c;
     dragging_layer := dragging_layer c; edge_drag_offset := v |}.

(** ** VanishingPointEditor: the remaining buttons *)

Module EditorControls.

(** [toggle_control_point_mode] (cursor and message box are presentation). *)
Definition toggle_control_point_mode (ed : VanishingPointEditor) : VanishingPointEditor :=
  set_control_point_mode (negb (control_point_mode ed)) ed.

(** [toggle_grid] *)
Definition toggle_grid (ed : VanishingPointEditor) : VanishingPointEditor :=
  set_grid (set_enabled (negb (enabled (grid ed))) (grid ed)) ed.

(** [adjust_grid_density]: [answer] is the dialog's value when it was
    confirmed. *)
Definition adjust_grid_density (answer : option Z) (ed : VanishingPointEditor)
    : VanishingPointEditor :=
  match answer with
  | Some v => set_grid (set_line_count v (grid ed)) ed
  | None => ed
  end.

(** [scale_image] *)
Definition scale_image (factor : float) (ed : VanishingPointEditor) : VanishingPointEditor :=
  set_canvas
    (set_scale_factor
       (CanvasOps.clamp_scale 5 (scale_factor (canvas ed) * factor)%float) (canvas ed)) ed.

(** [upload_image].  [picked] is what the file dialog and the decoders
    give: [None] when the dialog is cancelled, otherwise the image
    [QImage(file_path)] and what [QPixmap.load] makes of the same file
    ([None] when the pixmap stays null). *)
Definition upload_image (picked : option (QImage * option QImage))
    (ed : VanishingPointEditor) : VanishingPointEditor :=
  match EditorOps.get_current_layer ed, picked with
  | Some l, Some (img, pix) =>
      let l := set_warped_image (Some img) (set_original_image (Some img) l) in
      let ed := EditorOps.store_layer (Z.to_nat (current_layer_idx ed)) l ed in
      match pixmap (canvas ed) with
      | None => set_canvas (set_pixmap pix (canvas ed)) ed
      | Some _ => ed
      end
  | _, _ => ed
  end.

End EditorControls.

(** ** Canvas: hit testing and the press and release handlers *)

Module CanvasInput.

(** [find_layer_at_pos]: the layers are tried from the top of the list
    down. *)
Definition layer_contains (pos : QPoint) (l : PerspectiveLayer) : bool :=
  match warped_image l with
  | Some img =>
      visible l
      && (0 <=? QPoint.x pos - QPoint.x (position l))
      && (QPoint.x pos - QPoint.x (position l) <? width img)
      && (0 <=? QPoint.y pos - QPoint.y (position l))
      && (QPoint.y pos - QPoint.y (position l) <? height img)
  | None => false
  end.

Fixpoint find_layer_from (pos : QPoint) (ls : list PerspectiveLayer) (n : nat) : Z :=
  match n with
  | O => -1
  | S i =>
      match ls !! i with
      | Some l => if layer_contains pos l then Z.of_nat i else find_layer_from pos ls i
      | None => find_layer_from pos ls i
      end
  end.

Definition find_layer_at_pos (pos : QPoint) (ed : VanishingPointEditor) : Z :=
  find_layer_from pos (layers ed) (length (layers ed)).

(** [is_point_in_layer].  Python compares a [float] with an [int]
    exactly; for coordinates that fit a C [int] that is the comparison
    with the converted value. *)
Definition is_point_in_layer (point : QPoint) (l : PerspectiveLayer) : bool :=
  match drag_layer_image l with
  | None => false
  | Some img =>
      let layer_width := (PyFloat.of_int (width img) * layer_scale l)%float in
      let layer_height := (PyFloat.of_int (height img) * layer_scale l)%float in
      let layer_left :=
        (PyFloat.of_int (QPoint.x (layer_position l)) - layer_width / 2)%float in
      let layer_top :=
        (PyFloat.of_int (QPoint.y (layer_position l)) - layer_height / 2)%float in
      let layer_right := (layer_left + layer_width)%float in
      let layer_bottom := (layer_top + layer_height)%float in
      (layer_left <=? PyFloat.of_int (QPoint.x point))%float
      && (PyFloat.of_int (QPoint.x point) <=? layer_right)%float
      && (layer_top <=? PyFloat.of_int (QPoint.y point))%float
      && (PyFloat.of_int (QPoint.y point) <=? layer_bottom)%float
  end.

(** [mouseReleaseEvent] *)
Definition mouseReleaseEvent (left_button : bool) (ed : VanishingPointEditor)
    : VanishingPointEditor :=
  if left_button then
    set_canvas
      (set_dragging_layer (-1)
         (set_dragging_edge (-1)
            (set_dragging_point (-1) (set_dragging_view false (canvas ed))))) ed
  else ed.

(** The projection [find_closest_edge] computes for an edge that is the
    nearest so far.  [max(0, min(1, t))] returns the [int] bound when the
    bound wins, and the arithmetic that follows is then on integers. *)
Definition edge_projection (pos p1 p2 : QPoint) : option QPoint :=
  let dx := QPoint.x p2 - QPoint.x p1 in
  let dy := QPoint.y p2 - QPoint.y p1 in
  let num := (QPoint.x pos - QPoint.x p1) * dx + (QPoint.y pos - QPoint.y p1) * dy in
  let t := (PyFloat.of_int num / (PyFloat.of_int (dx ^ 2 + dy ^ 2) + 1e-8))%float in
  if (t <? 1)%float then
    if (0 <? t)%float then
      qpoint_of_floats (PyFloat.of_int (QPoint.x p1) + t * PyFloat.of_int dx)%float
                       (PyFloat.of_int (QPoint.y p1) + t * PyFloat.of_int dy)%float
    else Some ⟨QPoint.x p1 + 0 * dx, QPoint.y p1 + 0 * dy⟩
  else Some ⟨QPoint.x p1 + 1 * dx, QPoint.y p1 + 1 * dy⟩.

(** The loop of [find_closest_edge] over the edge indices still to visit. *)
Fixpoint edge_scan (pos : QPoint) (sel : list QPoint) (todo : list Z)
    (min_dist : float) (closest_idx : Z) (closest_point : QPoint)
    : option (Z * QPoint) :=
  match todo with
  | [] => Some (closest_idx, closest_point)
  | i :: todo' =>
      p1 ← py_getitem sel i;
      p2 ← py_getitem sel ((i + 1) mod 4);
      let dist := CanvasOps.distance_point_to_line pos p1 p2 in
      if (dist <? min_dist)%float then
        cp ← edge_projection pos p1 p2;
        edge_scan pos sel todo' dist i cp
      else edge_scan pos sel todo' min_dist closest_idx closest_point
  end.

(** [find_closest_edge] *)
Definition find_closest_edge (pos : QPoint) (ed : VanishingPointEditor)
    : option (Z * QPoint) :=
  match EditorOps.get_current_layer ed with
  | Some l =>
      if (length (selection_points l) <? 4)%nat then Some (-1, ⟨0, 0⟩)
      else edge_scan pos (selection_points l) [0; 1; 2; 3] 10 (-1) ⟨0, 0⟩
  | None => Some (-1, ⟨0, 0⟩)
  end.

(** NumPy's [hypot] is the C library's, which the program does not
    define: it is any function on doubles here. *)
Section Pointer.
Variable hypot : float -> float -> float.

(** [np.hypot(point.x() - pos.x(), point.y() - pos.y())] *)
Definition point_distance (pos point : QPoint) : float :=
  hypot (PyFloat.of_int (QPoint.x point - QPoint.x pos))
        (PyFloat.of_int (QPoint.y point - QPoint.y pos)).

(** The loop the three [find_closest_*] methods share: [i] is the index
    of the head of [pts]. *)
Fixpoint closest_scan (pos : QPoint) (pts : list QPoint) (i : Z)
    (min_dist : float) (closest_idx : Z) : Z :=
  match pts with
  | [] => closest_idx
  | point :: pts' =>
      let dist := point_distance pos point in
      if (dist <? min_dist)%float then closest_scan pos pts' (i + 1) dist i
      else closest_scan pos pts' (i + 1) min_dist closest_idx
  end.

(** [find_closest_point] *)
Definition find_closest_point (pos : QPoint) (ed : VanishingPointEditor) : Z :=
  match EditorOps.get_current_layer ed with
  | Some l =>
      if (length (selection_points l) <? 4)%nat then -1
      else closest_scan pos (selection_points l) 0 10 (-1)
  | None => -1
  end.

(** [find_closest_warp_point] *)
Definition find_closest_warp_point (pos : QPoint) (ed : VanishingPointEditor) : Z :=
  match EditorOps.get_current_layer ed with
  | Some l =>
      if (length (warp_points l) <? 4)%nat then -1
      else closest_scan pos (warp_points l) 0 10 (-1)
  | None => -1
  end.

(** [find_closest_control_point] *)
Definition find_closest_control_point (pos : QPoint) (ed : VanishingPointEditor) : Z :=
  match EditorOps.get_current_layer ed with
  | Some l =>
      if (length (points l) <? 1)%nat then -1
      else closest_scan pos (points l) 0 10 (-1)
  | None => -1
  end.

(** The offset [mousePressEvent] stores when an edge is grabbed: the
    pointer's distance from the edge along the edge normal, [None] when
    the edge has no direction and the stored offset stays. *)
Definition grab_offset (scene_pos p1 p2 : QPoint) : option (option QPoint) :=
  let dist := CanvasOps.distance_point_to_line scene_pos p1 p2 in
  let dx := QPoint.y p2 - QPoint.y p1 in
  let dy := QPoint.x p1 - QPoint.x p2 in
  if negb (dx =? 0) || negb (dy =? 0) then
    let length := sqrt (PyFloat.of_int (dx ^ 2 + dy ^ 2)) in
    let dx_normalized := (PyFloat.of_int dx / length)%float in
    let dy_normalized := (PyFloat.of_int dy / length)%float in
    let cross := (QPoint.x scene_pos - QPoint.x p1) * dy
                 - (QPoint.y scene_pos - QPoint.y p1) * dx in
    let direction := if 0 <? cross then 1 else -1 in
    mx ← PyFloat.to_int (dx_normalized * dist * PyFloat.of_int direction)%float;
    my ← PyFloat.to_int (dy_normalized * dist * PyFloat.of_int direction)%float;
    Some (Some ⟨mx, my⟩)
  else Some None.

(** Starting to drag point [i]: [dragging_point = i; dragging_view = True]. *)
Definition grab_point (i : Z) (ed : VanishingPointEditor) : VanishingPointEditor :=
  set_canvas (set_dragging_view true (set_dragging_point i (canvas ed))) ed.

(** [mousePressEvent]; [left_button] is [event.button() == Qt.LeftButton]. *)
Definition mousePressEvent (left_button : bool) (event_pos : QPoint)
    (ed : VanishingPointEditor) : option VanishingPointEditor :=
  match EditorOps.get_current_layer ed with
  | None => Some ed
  | Some cur =>
      scene_pos ← CanvasOps.transform_pos (canvas ed) event_pos;
      let here := Z.to_nat (current_layer_idx ed) in
      if negb left_button then Some ed
      else if layer_drag_mode cur && bool_decide (is_Some (drag_layer_image cur)) then
        if is_point_in_layer scene_pos cur then
          let c := set_dragging_view true
                     (set_dragging_layer (current_layer_idx ed) (canvas ed)) in
          let off := ⟨QPoint.x scene_pos - QPoint.x (layer_position cur),
                      QPoint.y scene_pos - QPoint.y (layer_position cur)⟩ in
          Some (set_canvas c (EditorOps.store_layer here (set_drag_offset off cur) ed))
        else Some (EditorOps.store_layer here (set_layer_drag_mode false cur) ed)
      else if control_point_mode ed then
        let control_idx := find_closest_control_point scene_pos ed in
        if negb (control_idx =? -1) then Some (grab_point control_idx ed)
        else
          let point_idx := find_closest_point scene_pos ed in
          if negb (point_idx =? -1) then Some (grab_point point_idx ed)
          else
            '(edge_idx, _) ← find_closest_edge scene_pos ed;
            if negb (edge_idx =? -1) then
              let c := set_dragging_view true (set_dragging_edge edge_idx (canvas ed)) in
              p1 ← py_getitem (selection_points cur) edge_idx;
              p2 ← py_getitem (selection_points cur) ((edge_idx + 1) mod 4);
              off ← grab_offset scene_pos p1 p2;
              Some (set_canvas (match off with
                                | Some o => set_edge_drag_offset o c
                                | None => c
                                end) ed)
            else
              let warp_idx := find_closest_warp_point scene_pos ed in
              if negb (warp_idx =? -1) then Some (grab_point warp_idx ed)
              else if (length (points cur) <? 4)%nat then
                let l := set_points (points cur ++ [scene_pos]) cur in
                let l := if (length (selection_points l) <? 4)%nat
                         then set_selection_points (selection_points l ++ [scene_pos]) l
                         else l in
                let ed := EditorOps.store_layer here l ed in
                Some (if (length (points l) =? 4)%nat
                      then EditorControls.toggle_control_point_mode ed else ed)
              else Some ed
      else
        let layer_idx := find_layer_at_pos scene_pos ed in
        if negb (layer_idx =? -1) then
          match layers ed !! Z.to_nat layer_idx with
          | Some l =>
              let off := ⟨QPoint.x scene_pos - QPoint.x (position l),
                          QPoint.y scene_pos - QPoint.y (position l)⟩ in
              let c := set_dragging_view true (set_dragging_layer layer_idx (canvas ed)) in
              Some (set_canvas c
                      (EditorOps.store_layer (Z.to_nat layer_idx) (set_drag_offset off l)
                         (set_current_layer_idx layer_idx ed)))
          | None => None
          end
        else
          Some (set_canvas (set_last_drag_pos event_pos
                              (set_dragging_view true (canvas ed))) ed)
  end.

End Pointer.

End CanvasInput.

(** * Vocabulary of the properties *)

(** ** Lines *)



(** [abs(vp.x()) < 10 and abs(vp.y()) < 10] *)
Definition near_origin (vp : QPoint) : bool :=
  (Z.abs (QPoint.x vp) <? 10) && (Z.abs (QPoint.y vp) <? 10).

(** ** Runs of the layer stack *)

(** The operations on the stack that the buttons and the list widget
    trigger. *)
Inductive stack_op :=
  | AddLayer (nm : string)
  | MoveUp
  | MoveDown
  | SelectLayer (row : Z).

Definition apply_op (ed : VanishingPointEditor) (op : stack_op) : VanishingPointEditor :=
  match op with
  | AddLayer nm => EditorOps.add_layer nm ed
  | MoveUp => EditorOps.move_layer_up ed
  | MoveDown => EditorOps.move_layer_down ed
  | SelectLayer row => EditorOps.select_layer row ed
  end.

Definition run_ops (ops : list stack_op) (ed : VanishingPointEditor) : VanishingPointEditor :=
  foldl apply_op ed ops.

(** [VanishingPointEditor.__init__] before [init_ui] adds the default
    layer. *)
Definition empty_editor (g : PerspectiveGrid) (c : Canvas) : VanishingPointEditor :=
  {| layers := []; current_layer_idx := -1; grid := g;
     control_point_mode := false; canvas := c |}.

(** Every layer's [z_order] is its index in the list. *)
Definition z_indexed (ls : list PerspectiveLayer) : Prop :=
  forall i l, ls !! i = Some l -> z_order l = Z.of_nat i.

(** ** Runs of zoom and drag *)

(** A run of wheel ticks, and a run of layer-drag moves on one layer (each
    move sees the grid of its moment and the pointer position). *)
Definition wheel_steps (deltas : list Z) (ed : VanishingPointEditor) : VanishingPointEditor :=
  foldl (fun e d => CanvasOps.wheelEvent d e) ed deltas.

Fixpoint drag_steps (atan2 : float -> float -> float)
    (moves : list (PerspectiveGrid * QPoint)) (l : PerspectiveLayer)
    : option PerspectiveLayer :=
  match moves with
  | [] => Some l
  | (g, pos) :: ms => l' ← CanvasOps.drag_layer_step atan2 g pos l; drag_steps atan2 ms l'
  end.

(** The layer is in layer-drag mode with its drag image, as
    [toggle_layer_drag_mode] leaves it when it switches the mode on. *)
Definition free_dragging (l : PerspectiveLayer) : Prop :=
  layer_drag_mode l = true
  /\ is_Some (drag_layer_image l)
  /\ is_Some (initial_vp1_distance l).

(** The anchor a move to [pos] gives the layer. *)
Definition drag_anchor (pos : QPoint) (l : PerspectiveLayer) : QPoint :=
  ⟨QPoint.x pos - QPoint.x (drag_offset l), QPoint.y pos - QPoint.y (drag_offset l)⟩.

(** [|atan2|] of the angle at [initial_center] between the drag direction
    and the direction of [vp]. *)
Definition drag_angle (atan2 : float -> float -> float) (anchor vp : QPoint)
    (l : PerspectiveLayer) : float :=
  abs (CanvasOps.angle_between atan2
         (QPoint.sub anchor (initial_center l)) (QPoint.sub vp (initial_center l))).

(** [current / initial], or 1.0 when the stored distance is zero. *)
Definition distance_ratio (current initial : float) : float :=
  if PyFloat.nonzero initial then (current / initial)%float else 1%float.

(** ** Quads *)

(** The axis-aligned bounding box of a point list: its width and height,
    [None] for the empty list. *)
Definition bbox_width (q : list QPoint) : option Z :=
  lo ← py_min_list (map QPoint.x q); hi ← py_max_list (map QPoint.x q); Some (hi - lo).

Definition bbox_height (q : list QPoint) : option Z :=
  lo ← py_min_list (map QPoint.y q); hi ← py_max_list (map QPoint.y q); Some (hi - lo).

(** [PerspectiveGrid.__init__] *)
Definition new_grid : PerspectiveGrid :=
  {| vanishing_points := []; grid_size := 50; line_count := 15; enabled := true;
     primary_vp := [] |}.

(** The vanishing points recomputed from a quad. *)
Definition recomputed_vp (quad : list QPoint) : option (list QPoint) :=
  fst <$> GridOps.calculate_two_point_perspective new_grid quad.



(** ** Sample states *)

(** [Canvas.__init__] *)
Definition new_canvas : Canvas :=
  {| pixmap := None; scale_factor := 1%float; offset := ⟨0, 0⟩;
     dragging_view := false; last_drag_pos := ⟨0, 0⟩; dragging_point := -1;
     dragging_edge := -1; dragging_layer := -1; edge_drag_offset := ⟨0, 0⟩ |}.


(** A layer in layer-drag mode: anchored at (300, 200), 500 units from the
    first vanishing point and 400 from the second, zoomed to 3.0 with the
    wheel. *)
Definition dragged_layer : PerspectiveLayer :=
  {| name := "drag"; original_image := None; warped_image := None; visible := true;
     points := [⟨200, 150⟩; ⟨400, 150⟩; ⟨400, 250⟩; ⟨200, 250⟩]; warp_points := [];
     z_order := 0; opacity := 1%float;
     selection_points := [⟨200, 150⟩; ⟨400, 150⟩; ⟨400, 250⟩; ⟨200, 250⟩];
     position := ⟨0, 0⟩; source_vp := []; original_width := 0; original_height := 0;
     drag_offset := ⟨0, 0⟩; layer_drag_mode := true; layer_scale := 3%float;
     layer_position := ⟨300, 200⟩;
     drag_layer_image := Some {| width := 200; height := 100 |};
     initial_center := ⟨300, 200⟩; initial_vp2_distance := 400%float;
     initial_vp1_distance := Some 500%float |}.

Definition dragged_grid : PerspectiveGrid :=
  set_primary_vp [⟨800, 200⟩; ⟨-100, 200⟩] new_grid.

Definition dragged_editor : VanishingPointEditor :=
  {| layers := [dragged_layer]; current_layer_idx := 0; grid := dragged_grid;
     control_point_mode := false; canvas := new_canvas |}.

(** The same layer before layer-drag mode is entered, over a loaded
    800 x 600 pixmap. *)
Definition marked_editor : VanishingPointEditor :=
  {| layers := [set_initial_vp1_distance None (set_layer_drag_mode false
                  (set_drag_layer_image None dragged_layer))];
     current_layer_idx := 0; grid := dragged_grid; control_point_mode := false;
     canvas := {| pixmap := Some {| width := 800; height := 600 |};
                  scale_factor := 1%float; offset := ⟨0, 0⟩; dragging_view := false;
                  last_drag_pos := ⟨0, 0⟩; dragging_point := -1; dragging_edge := -1;
                  dragging_layer := -1; edge_drag_offset := ⟨0, 0⟩ |} |}.

(** A stand-in for the C library's [atan2], exact on the positive and
    negative x axis, which is all the instance below needs. *)
Definition axis_atan2 (y x : float) : float :=
  if (x <? 0)%float then 0x1.921fb54442d18p+1%float else 0%float.

Definition whole_box (_ : QImage) (_ : list QPoint) (w h : Z) : option QImage :=
  Some {| width := w; height := h |}.

(** ** Events and reachable states *)

(** What the window can be asked to do: the buttons, the layer list, the
    context menu and the pointer.  Dialog answers and decoded files come
    with the event. *)
Inductive event :=
  | EvAddLayer (nm : string)
  | EvUploadImage (picked : option (QImage * option QImage))
  | EvSelectLayer (row : Z)
  | EvMoveLayerUp
  | EvMoveLayerDown
  | EvToggleControlPointMode
  | EvClearPoints
  | EvCalculateVanishingPoints
  | EvToggleGrid
  | EvAdjustGridDensity (answer : option Z)
  | EvScaleImage (factor : float)
  | EvToggleLayerDragMode
  | EvMousePress (left_button : bool) (pos : QPoint)
  | EvMouseMove (pos : QPoint)
  | EvMouseRelease (left_button : bool)
  | EvWheel (delta_y : Z).

(** The state [VanishingPointEditor()] starts in: [__init__] followed by
    the default layer that [init_ui] adds. *)
Definition initial_editor : VanishingPointEditor :=
  EditorOps.add_layer "背景图层" (empty_editor new_grid new_canvas).

Section Handlers.
Variable atan2 hypot : float -> float -> float.
Variable extract_quad : QImage -> list QPoint -> Z -> Z -> option QImage.

(** The handler of each event; [None] when it raises. *)
Definition handle (ev : event) (ed : VanishingPointEditor) : option VanishingPointEditor :=
  match ev with
  | EvAddLayer nm => Some (EditorOps.add_layer nm ed)
  | EvUploadImage picked => Some (EditorControls.upload_image picked ed)
  | EvSelectLayer row => Some (EditorOps.select_layer row ed)
  | EvMoveLayerUp => Some (EditorOps.move_layer_up ed)
  | EvMoveLayerDown => Some (EditorOps.move_layer_down ed)
  | EvToggleControlPointMode => Some (EditorControls.toggle_control_point_mode ed)
  | EvClearPoints => Some (EditorOps.clear_points ed)
  | EvCalculateVanishingPoints => EditorOps.calculate_vanishing_points ed
  | EvToggleGrid => Some (EditorControls.toggle_grid ed)
  | EvAdjustGridDensity answer => Some (EditorControls.adjust_grid_density answer ed)
  | EvScaleImage factor => Some (EditorControls.scale_image factor ed)
  | EvToggleLayerDragMode => CanvasOps.toggle_layer_drag_mode atan2 extract_quad ed
  | EvMousePress left_button pos => CanvasInput.mousePressEvent hypot left_button pos ed
  | EvMouseMove pos => CanvasOps.mouseMoveEvent atan2 pos ed
  | EvMouseRelease left_button => Some (CanvasInput.mouseReleaseEvent left_button ed)
  | EvWheel delta_y => Some (CanvasOps.wheelEvent delta_y ed)
  end.

(** The states the window passes through while no handler raises. *)
Inductive reachable : VanishingPointEditor -> Prop :=
  | reachable_initial : reachable initial_editor
  | reachable_step ed ev ed' :
      reachable ed -> handle ev ed = Some ed' -> reachable ed'.

(** A run of events from a state; [None] as soon as a handler raises. *)
Fixpoint run_events (evs : list event) (ed : VanishingPointEditor)
    : option VanishingPointEditor :=
  match evs with
  | [] => Some ed
  | ev :: evs' => ed' ← handle ev ed; run_events evs' ed'
  end.

End Handlers.

(** What every layer of a reachable state satisfies. *)
Definition layer_inv (l : PerspectiveLayer) : Prop :=
  points l = selection_points l
  /\ (length (points l) <= 4)%nat
  /\ warp_points l = [] /\ source_vp l = []
  /\ original_width l = 0 /\ original_height l = 0
  /\ PyFloat.within 0.1 5 (layer_scale l)
  /\ (layer_drag_mode l = true ->
      is_Some (drag_layer_image l) /\ is_Some (initial_vp1_distance l)).

(** The stored vanishing points: none, or a pair that passed the
    validity test. *)
Definition grid_inv (g : PerspectiveGrid) : Prop :=
  primary_vp g = []
  \/ exists vp1 vp2, primary_vp g = [vp1; vp2]
       /\ GridOps.valid_vp vp1 = true /\ GridOps.valid_vp vp2 = true.

Definition editor_inv (ed : VanishingPointEditor) : Prop :=
  Forall layer_inv (layers ed)
  /\ grid_inv (grid ed)
  /\ PyFloat.within 0.1 5 (scale_factor (canvas ed))
  /\ z_indexed (layers ed).

(** A layer with its [z_order] blanked: what a move in the stack keeps. *)
Definition forget_z_order (l : PerspectiveLayer) : PerspectiveLayer := set_z_order 0 l.

(** The order [sort_points] leaves two neighbours in: the later one's key
    is not before the earlier one's. *)
Fixpoint neighbours_ordered {K} (lt : K -> K -> bool) (keys : list K) : Prop :=
  match keys with
  | a :: (b :: _) as rest => lt b a = false /\ neighbours_ordered lt rest
  | _ => True
  end.

(** The key [sort_points] sorts by. *)
Definition centroid_angle (atan2 : float -> float -> float) (pts : list QPoint)
    (p : QPoint) : float :=
  atan2 (PyFloat.of_int (QPoint.y p)
         - PyFloat.int_truediv (CanvasOps.sum_list (map QPoint.y pts)) 4)%float
        (PyFloat.of_int (QPoint.x p)
         - PyFloat.int_truediv (CanvasOps.sum_list (map QPoint.x pts)) 4)%float.

(** The distance [find_closest_edge] measures to edge [i] of a selection. *)
Definition edge_distance (pos : QPoint) (sel : list QPoint) (i : Z) : option float :=
  p1 ← py_getitem sel i;
  p2 ← py_getitem sel ((i + 1) mod 4);
  Some (CanvasOps.distance_point_to_line pos p1 p2).

(** ** A sample session *)

(** A [hypot] without the C library's scaling. *)
Definition sqrt_hypot (a b : float) : float := sqrt (a * a + b * b).



(** Load a picture, mark the corners of a trapezoid, compute the
    vanishing points, cut the selection out and drag and zoom it. *)
Definition sample_session : list event :=
  [EvUploadImage (Some ({| width := 640; height := 480 |},
                        Some {| width := 640; height := 480 |}));
   EvToggleControlPointMode;
   EvMousePress true ⟨100, 100⟩; EvMouseRelease true;
   EvMousePress true ⟨300, 100⟩; EvMouseRelease true;
   EvMousePress true ⟨320, 250⟩; EvMouseRelease true;
   EvMousePress true ⟨80, 250⟩; EvMouseRelease true;
   EvCalculateVanishingPoints;
   EvToggleLayerDragMode;
   EvMousePress true ⟨200, 175⟩;
   EvMouseMove ⟨220, 180⟩;
   EvWheel 120;
   EvMouseRelease true].

(** * Properties *)

(** One step through a bind that is known to succeed. *)
Ltac bind_step H :=
  match type of H with
  | (?m ≫= _) = Some _ =>
      let E := fresh "E" in
      destruct m eqn:E; [cbn [mbind option_bind] in H|discriminate]
  end.

(** ** Order on binary64 values *)

Section FloatOrder.

Lemma SFcompare_antisym a b : SFcompare a b = CompOpp <$> SFcompare b a.
Proof.
  destruct a as [sa|sa| |sa ma ea], b as [sb|sb| |sb mb eb]; simpl;
    try reflexivity; try (destruct sa; reflexivity);
    try (destruct sb; reflexivity); try (destruct sa, sb; reflexivity).
  pose proof (Pos.compare_cont_antisym mb ma Eq) as Hm. simpl in Hm.
  change (PosDef.Pos.compare_cont Eq ma mb) with (Pos.compare_cont Eq ma mb).
  change (PosDef.Pos.compare_cont Eq mb ma) with (Pos.compare_cont Eq mb ma).
  destruct sa, sb; try reflexivity; rewrite (Z.compare_antisym eb ea);
    destruct (eb ?= ea); simpl; try reflexivity; rewrite <- Hm;
    now rewrite ?CompOpp_involutive.
Qed.

Lemma SFcompare_refl a : a <> S754_nan -> SFcompare a a = Some Eq.
Proof.
  destruct a as [s|s| |s m e]; simpl; intros H; try congruence.
  - now destruct s.
  - rewrite Z.compare_refl.
    change (PosDef.Pos.compare_cont Eq m m) with (Pos.compare_cont Eq m m).
    rewrite Pos.compare_cont_refl. now destruct s.
Qed.

Lemma SFcompare_Some_l a b c : SFcompare a b = Some c -> a <> S754_nan.
Proof. intros H ->. discriminate. Qed.

Lemma SFcompare_Some_r a b c : SFcompare a b = Some c -> b <> S754_nan.
Proof. intros H ->. destruct a; discriminate. Qed.

Lemma ltb_leb x y : (x <? y)%float = true -> (x <=? y)%float = true.
Proof.
  rewrite ltb_spec, leb_spec. unfold SFltb, SFleb.
  destruct (SFcompare _ _) as [[]|]; congruence.
Qed.

Lemma leb_refl_l x y : (x <=? y)%float = true -> (x <=? x)%float = true.
Proof.
  rewrite !leb_spec. unfold SFleb.
  destruct (SFcompare (Prim2SF x) (Prim2SF y)) eqn:E; [|discriminate].
  intros _. now rewrite (SFcompare_refl _ (SFcompare_Some_l _ _ _ E)).
Qed.

Lemma leb_refl_r x y : (x <=? y)%float = true -> (y <=? y)%float = true.
Proof.
  rewrite !leb_spec. unfold SFleb.
  destruct (SFcompare (Prim2SF x) (Prim2SF y)) eqn:E; [|discriminate].
  intros _. now rewrite (SFcompare_refl _ (SFcompare_Some_r _ _ _ E)).
Qed.

(** [not (y < x)] gives [x <= y] once neither side is NaN. *)
Lemma leb_of_not_ltb x y :
  (y <? x)%float = false -> (x <=? x)%float = true -> (y <=? y)%float = true ->
  (x <=? y)%float = true.
Proof.
  rewrite ltb_spec, !leb_spec. unfold SFltb, SFleb. intros Hlt Hx Hy.
  rewrite SFcompare_antisym.
  destruct (SFcompare (Prim2SF y) (Prim2SF x)) as [[]|] eqn:E; simpl;
    try congruence.
  destruct (Prim2SF x) as [| | |]; destruct (Prim2SF y) as [| | |];
    simpl in *; try discriminate.
Qed.

Lemma ltb_false_of_leb x y : (x <=? y)%float = true -> (y <? x)%float = false.
Proof.
  rewrite ltb_spec, leb_spec. unfold SFltb, SFleb.
  rewrite (SFcompare_antisym (Prim2SF y)).
  destruct (SFcompare (Prim2SF x) (Prim2SF y)) as [[]|]; simpl; congruence.
Qed.

(** [max(lo, min(s, hi))] lands in [[lo, hi]] for every [s], NaN
    included. *)
Lemma clamp_within lo hi s :
  (lo <=? hi)%float = true ->
  PyFloat.within lo hi (PyFloat.max lo (PyFloat.min s hi)).
Proof.
  intros Hlh. pose proof (leb_refl_l _ _ Hlh) as Hlo.
  pose proof (leb_refl_r _ _ Hlh) as Hhi.
  unfold PyFloat.within, PyFloat.max, PyFloat.min.
  destruct (hi <? s)%float eqn:E1.
  - destruct (lo <? hi)%float; auto.
  - destruct (lo <? s)%float eqn:E2; auto.
    split; [now apply ltb_leb|].
    apply leb_of_not_ltb; auto.
    apply (leb_refl_r lo). now apply ltb_leb.
Qed.


End FloatOrder.

(** ** Line intersection *)

Section LineIntersection.

(** C8: when the denominator [(x1-x2)(y3-y4) - (y1-y2)(x3-x4)] is zero
    (parallel or coincident lines) the grid's [line_intersection] returns
    the far point (10000, 10000) and the canvas's returns the end point
    [(x2, y2)] of the first segment; both return, neither raises. *)
Theorem parallel_lines_fallback (a1 a2 b1 b2 : QPoint) :
  den_of a1 a2 b1 b2 = 0 ->
  GridOps.line_intersection a1 a2 b1 b2 = Some ⟨10000, 10000⟩
  /\ CanvasOps.line_intersection a1 a2 b1 b2 = Some ⟨QPoint.x a2, QPoint.y a2⟩.
Proof.
  intros Hden. unfold GridOps.line_intersection, CanvasOps.line_intersection.
  now rewrite Hden.
Qed.

Lemma parallel_lines_fallback_witness :
  GridOps.line_intersection ⟨0, 0⟩ ⟨4, 2⟩ ⟨1, 5⟩ ⟨3, 6⟩ = Some ⟨10000, 10000⟩
  /\ CanvasOps.line_intersection ⟨0, 0⟩ ⟨4, 2⟩ ⟨1, 5⟩ ⟨3, 6⟩ = Some ⟨4, 2⟩.
Proof. apply (parallel_lines_fallback ⟨0, 0⟩ ⟨4, 2⟩ ⟨1, 5⟩ ⟨3, 6⟩). reflexivity. Defined.

(** Off the parallel case the two methods agree. *)
Lemma line_intersection_variants_agree (a1 a2 b1 b2 : QPoint) :
  den_of a1 a2 b1 b2 <> 0 ->
  GridOps.line_intersection a1 a2 b1 b2 = CanvasOps.line_intersection a1 a2 b1 b2.
Proof.
  intros Hden. unfold GridOps.line_intersection, CanvasOps.line_intersection.
  now destruct (Z.eqb_spec (den_of a1 a2 b1 b2) 0).
Qed.



End LineIntersection.

Section IntersectionResidual.




End IntersectionResidual.

(** ** Vanishing points of a quadrilateral *)

Section TwoPointPerspective.


End TwoPointPerspective.

(** ** Layer stack *)

Section LayerStack.

Import EditorOps.

Lemma bump_z_order_cancel d e l :
  d + e = 0 -> bump_z_order e (bump_z_order d l) = l.
Proof.
  intros H. destruct l. unfold bump_z_order, set_z_order. simpl. f_equal. lia.
Qed.

Lemma swap_items_lookup {A} (ls : list A) i j a b :
  ls !! i = Some a -> ls !! j = Some b ->
  swap_items i j ls = <[j := a]> (<[i := b]> ls).
Proof. intros Hi Hj. unfold swap_items. now rewrite Hi, Hj. Qed.

Lemma insert_over_alter {A} (f : A -> A) (ls : list A) i x :
  <[i := x]> (alter f i ls) = <[i := x]> ls.
Proof.
  apply list_eq. intros k. destruct (decide (i = k)) as [->|Hne].
  - destruct (decide (k < length ls)%nat).
    + rewrite !list_lookup_insert_eq; rewrite ?length_alter; auto.
    + rewrite !list_insert_ge; rewrite ?length_alter; try lia.
      rewrite list_lookup_alter_eq.
      rewrite (lookup_ge_None_2 ls k); [reflexivity | lia].
  - rewrite !list_lookup_insert_ne by done. now rewrite list_lookup_alter_ne.
Qed.

Lemma insert_alter_commute {A} (f : A -> A) (ls : list A) i j x :
  i <> j -> <[i := x]> (alter f j ls) = alter f j (<[i := x]> ls).
Proof.
  intros Hne. rewrite !list_insert_alter. now apply list_alter_alter_ne.
Qed.

(** One move up, in closed form: the layer at [n] goes to [n + 1] with its
    [z_order] raised by one, the layer that was above it comes down to [n]
    with its [z_order] lowered by one, and the selection follows. *)
Lemma move_layer_up_layers ed n a b :
  current_layer_idx ed = Z.of_nat n ->
  layers ed !! n = Some a -> layers ed !! S n = Some b ->
  move_layer_up ed =
    set_current_layer_idx (Z.of_nat n + 1)
      (set_layers (<[S n := bump_z_order 1 a]> (<[n := bump_z_order (-1) b]> (layers ed))) ed).
Proof.
  intros Hidx Ha Hb. unfold move_layer_up. rewrite Hidx.
  pose proof (lookup_lt_Some _ _ _ Hb) as Hlen.
  replace ((0 <=? Z.of_nat n) && (Z.of_nat n <? Z.of_nat (length (layers ed)) - 1))
    with true by (symmetry; apply andb_true_iff; split; lia).
  rewrite Nat2Z.id.
  set (ls1 := alter (bump_z_order 1) n (layers ed)).
  set (ls2 := alter (bump_z_order (-1)) (S n) ls1).
  assert (H2n : ls2 !! n = Some (bump_z_order 1 a)).
  { unfold ls2, ls1. rewrite list_lookup_alter_ne by lia.
    now rewrite list_lookup_alter_eq, Ha. }
  assert (H2s : ls2 !! S n = Some (bump_z_order (-1) b)).
  { unfold ls2, ls1. rewrite list_lookup_alter_eq.
    rewrite list_lookup_alter_ne by lia. now rewrite Hb. }
  rewrite (swap_items_lookup _ _ _ _ _ H2n H2s).
  do 2 f_equal. unfold ls2, ls1.
  rewrite insert_alter_commute by lia. rewrite insert_over_alter.
  f_equal. apply insert_over_alter.
Qed.

Lemma move_layer_down_layers ed n a b :
  current_layer_idx ed = Z.of_nat (S n) ->
  layers ed !! S n = Some a -> layers ed !! n = Some b ->
  move_layer_down ed =
    set_current_layer_idx (Z.of_nat (S n) - 1)
      (set_layers (<[n := bump_z_order (-1) a]> (<[S n := bump_z_order 1 b]> (layers ed))) ed).
Proof.
  intros Hidx Ha Hb. unfold move_layer_down. rewrite Hidx.
  pose proof (lookup_lt_Some _ _ _ Ha) as Hlen.
  replace ((0 <? Z.of_nat (S n)) && (Z.of_nat (S n) <? Z.of_nat (length (layers ed))))
    with true by (symmetry; apply andb_true_iff; split; [apply Z.ltb_lt|apply Z.ltb_lt]; lia).
  rewrite Nat2Z.id. simpl pred.
  set (ls1 := alter (bump_z_order (-1)) (S n) (layers ed)).
  set (ls2 := alter (bump_z_order 1) n ls1).
  assert (H2s : ls2 !! S n = Some (bump_z_order (-1) a)).
  { unfold ls2, ls1. rewrite list_lookup_alter_ne by lia.
    now rewrite list_lookup_alter_eq, Ha. }
  assert (H2n : ls2 !! n = Some (bump_z_order 1 b)).
  { unfold ls2, ls1. rewrite list_lookup_alter_eq.
    rewrite list_lookup_alter_ne by lia. now rewrite Hb. }
  rewrite (swap_items_lookup _ _ _ _ _ H2s H2n).
  do 2 f_equal. unfold ls2, ls1.
  rewrite insert_alter_commute by lia. rewrite insert_over_alter.
  f_equal. apply insert_over_alter.
Qed.

End LayerStack.

Section LayerOrder.

Import EditorOps.



Lemma z_indexed_swap ls n a b :
  z_indexed ls -> ls !! n = Some a -> ls !! S n = Some b ->
  z_indexed (<[S n := bump_z_order 1 a]> (<[n := bump_z_order (-1) b]> ls)).
Proof.
  intros Hz Ha Hb i l.
  pose proof (lookup_lt_Some _ _ _ Ha). pose proof (lookup_lt_Some _ _ _ Hb).
  destruct (decide (i = S n)) as [->|Hs].
  - rewrite list_lookup_insert_eq by (rewrite length_insert; lia).
    intros [= <-]. simpl. rewrite (Hz _ _ Ha). lia.
  - rewrite list_lookup_insert_ne by done.
    destruct (decide (i = n)) as [->|Hn].
    + rewrite list_lookup_insert_eq by lia.
      intros [= <-]. simpl. rewrite (Hz _ _ Hb). lia.
    + rewrite list_lookup_insert_ne by done. apply Hz.
Qed.

Lemma move_layer_up_cases ed :
  move_layer_up ed = ed
  \/ exists n a b, current_layer_idx ed = Z.of_nat n
       /\ layers ed !! n = Some a /\ layers ed !! S n = Some b.
Proof.
  unfold move_layer_up.
  destruct ((0 <=? current_layer_idx ed)
            && (current_layer_idx ed <? Z.of_nat (length (layers ed)) - 1)) eqn:G;
    [|now left].
  right. apply andb_true_iff in G as [G1 G2].
  apply Z.leb_le in G1. apply Z.ltb_lt in G2.
  exists (Z.to_nat (current_layer_idx ed)).
  destruct (lookup_lt_is_Some_2 (layers ed) (Z.to_nat (current_layer_idx ed)))
    as [a Ha]; [lia|].
  destruct (lookup_lt_is_Some_2 (layers ed) (S (Z.to_nat (current_layer_idx ed))))
    as [b Hb]; [lia|].
  exists a, b. repeat split; auto. lia.
Qed.

Lemma move_layer_down_cases ed :
  move_layer_down ed = ed
  \/ exists n a b, current_layer_idx ed = Z.of_nat (S n)
       /\ layers ed !! S n = Some a /\ layers ed !! n = Some b.
Proof.
  unfold move_layer_down.
  destruct ((0 <? current_layer_idx ed)
            && (current_layer_idx ed <? Z.of_nat (length (layers ed)))) eqn:G;
    [|now left].
  right. apply andb_true_iff in G as [G1 G2].
  apply Z.ltb_lt in G1. apply Z.ltb_lt in G2.
  exists (pred (Z.to_nat (current_layer_idx ed))).
  replace (S (pred (Z.to_nat (current_layer_idx ed))))
    with (Z.to_nat (current_layer_idx ed)) by lia.
  destruct (lookup_lt_is_Some_2 (layers ed) (Z.to_nat (current_layer_idx ed)))
    as [a Ha]; [lia|].
  destruct (lookup_lt_is_Some_2 (layers ed) (pred (Z.to_nat (current_layer_idx ed))))
    as [b Hb]; [lia|].
  exists a, b. repeat split; auto. lia.
Qed.

Lemma apply_op_z_indexed ed op :
  z_indexed (layers ed) -> z_indexed (layers (apply_op ed op)).
Proof.
  intros Hz. destruct op as [nm| | |row]; simpl.
  - intros i l. rewrite lookup_app_Some. intros [Hl|[Hge Hl]]; [now apply Hz|].
    apply list_lookup_singleton_Some in Hl as [Hi <-]. simpl. lia.
  - destruct (move_layer_up_cases ed) as [->|(n & a & b & Hi & Ha & Hb)]; [done|].
    rewrite (move_layer_up_layers ed n a b Hi Ha Hb). simpl.
    now apply z_indexed_swap.
  - destruct (move_layer_down_cases ed) as [->|(n & a & b & Hi & Ha & Hb)]; [done|].
    rewrite (move_layer_down_layers ed n a b Hi Ha Hb). simpl.
    rewrite list_insert_insert_ne by lia.
    now apply z_indexed_swap.
  - exact Hz.
Qed.

Lemma run_ops_z_indexed ops ed :
  z_indexed (layers ed) -> z_indexed (layers (run_ops ops ed)).
Proof.
  revert ed. induction ops as [|op ops IH]; intros ed Hz; [exact Hz|].
  simpl. apply IH. now apply apply_op_z_indexed.
Qed.

Lemma sort_by_sorted {A} (key : A -> Z) (ls : list A) :
  (forall i j a b, (i < j)%nat -> ls !! i = Some a -> ls !! j = Some b -> key a <= key b) ->
  sort_by Z.ltb key ls = ls.
Proof.
  induction ls as [|x xs IH]; intros Hs; [reflexivity|].
  unfold sort_by in *. simpl. rewrite IH.
  - destruct xs as [|y ys]; [reflexivity|]. simpl.
    pose proof (Hs 0%nat 1%nat x y ltac:(lia) eq_refl eq_refl).
    destruct (Z.ltb_spec (key y) (key x)); [lia|reflexivity].
  - intros i j a b Hij Ha Hb. apply (Hs (S i) (S j)); auto. lia.
Qed.

(** C9: from the empty stack, after any sequence of add-layer, move-up,
    move-down (and selection) operations, every layer's [z_order] is its
    index in the list, so sorting by [z_order] is the identity and
    [draw_layers] paints the visible layers in list order. *)
Theorem z_order_is_list_index (ops : list stack_op) (g : PerspectiveGrid) (c : Canvas) :
  let ed := run_ops ops (empty_editor g c) in
  z_indexed (layers ed)
  /\ sort_by Z.ltb z_order (layers ed) = layers ed
  /\ draw_layers ed = filter (fun l => visible l = true) (layers ed).
Proof.
  intros ed.
  assert (Hz : z_indexed (layers ed)).
  { apply run_ops_z_indexed. intros i l. discriminate. }
  assert (Hs : sort_by Z.ltb z_order (layers ed) = layers ed).
  { apply sort_by_sorted. intros i j a b Hij Ha Hb.
    rewrite (Hz _ _ Ha), (Hz _ _ Hb). lia. }
  repeat split; auto. unfold draw_layers. now rewrite Hs.
Qed.

End LayerOrder.

(** ** Layer scale: free drag and wheel zoom *)

Section LayerScale.

Import CanvasOps.
Variable atan2 : float -> float -> float.

Lemma free_dragging_guard l :
  free_dragging l ->
  layer_drag_mode l && bool_decide (is_Some (drag_layer_image l)) = true.
Proof.
  intros (Hm & Hi & _). rewrite Hm. simpl. now apply bool_decide_eq_true.
Qed.

(** One scale-deriving move, in closed form. *)
Lemma drag_layer_step_scale g vp1 vp2 rest pos l d1 :
  free_dragging l -> initial_vp1_distance l = Some d1 ->
  primary_vp g = vp1 :: vp2 :: rest ->
  let anchor := drag_anchor pos l in
  let ratio :=
    if (drag_angle atan2 anchor vp1 l <? drag_angle atan2 anchor vp2 l)%float
    then distance_ratio (distance_to anchor vp1) d1
    else distance_ratio (distance_to anchor vp2) (initial_vp2_distance l) in
  drag_layer_step atan2 g pos l
  = Some (set_layer_scale (clamp_scale 2 ratio) (set_layer_position anchor l)).
Proof.
  intros Hfd Hd1 Hvp anchor ratio. unfold drag_layer_step.
  rewrite (free_dragging_guard l Hfd), Hvp.
  unfold drag_scale_ratio. simpl. rewrite Hd1. fold anchor.
  unfold ratio, drag_angle, distance_ratio. simpl.
  destruct (_ <? _)%float; reflexivity.
Qed.

Lemma clamp_scale_2_within r : PyFloat.within 0.1 2 (clamp_scale 2 r).
Proof. apply clamp_within. reflexivity. Qed.

Lemma clamp_scale_5_within r : PyFloat.within 0.1 5 (clamp_scale 5 r).
Proof. apply clamp_within. reflexivity. Qed.


End LayerScale.

Section ScaleRange.

Import CanvasOps.
Variable atan2 : float -> float -> float.

Lemma wheelEvent_scale_range d ed i l :
  layers ed !! i = Some l -> PyFloat.within 0.1 5 (layer_scale l) ->
  exists l', layers (wheelEvent d ed) !! i = Some l'
             /\ PyFloat.within 0.1 5 (layer_scale l').
Proof.
  intros Hl Hin. unfold wheelEvent.
  destruct (EditorOps.get_current_layer ed) as [cur|]; [|now exists l].
  destruct (layer_drag_mode cur && _); [|now exists l].
  simpl. set (n := Z.to_nat (current_layer_idx ed)).
  destruct (decide (n = i)) as [->|Hne].
  - rewrite list_lookup_insert_eq by (now apply lookup_lt_Some in Hl).
    eexists. split; [reflexivity|]. apply clamp_scale_5_within.
  - rewrite list_lookup_insert_ne by done. now exists l.
Qed.

Lemma wheel_steps_scale_range deltas ed i l :
  layers ed !! i = Some l -> PyFloat.within 0.1 5 (layer_scale l) ->
  exists l', layers (wheel_steps deltas ed) !! i = Some l'
             /\ PyFloat.within 0.1 5 (layer_scale l').
Proof.
  revert ed l. induction deltas as [|d ds IH]; intros ed l Hl Hin; [now exists l|].
  simpl. destruct (wheelEvent_scale_range d ed i l Hl Hin) as (l1 & Hl1 & Hin1).
  now apply (IH _ l1).
Qed.

Lemma free_dragging_moved p s l :
  free_dragging l ->
  free_dragging (set_layer_position p l)
  /\ free_dragging (set_layer_scale s (set_layer_position p l)).
Proof. intros H. split; exact H. Qed.

Lemma free_dragging_step_total g pos l :
  free_dragging l ->
  exists l', drag_layer_step atan2 g pos l = Some l' /\ free_dragging l'
    /\ ((2 <= length (primary_vp g))%nat -> PyFloat.within 0.1 2 (layer_scale l'))
    /\ (PyFloat.within 0.1 2 (layer_scale l) -> PyFloat.within 0.1 2 (layer_scale l')).
Proof.
  intros Hfd. pose proof Hfd as (Hm & Hi & [d1 Hd1]).
  destruct (primary_vp g) as [|vp1 [|vp2 rest]] eqn:Hvp.
  - unfold drag_layer_step. rewrite (free_dragging_guard l Hfd), Hvp.
    eexists. split; [reflexivity|].
    split; [now apply free_dragging_moved|]. simpl. split; [lia|auto].
  - unfold drag_layer_step. rewrite (free_dragging_guard l Hfd), Hvp.
    eexists. split; [reflexivity|].
    split; [now apply free_dragging_moved|]. simpl. split; [lia|auto].
  - rewrite (drag_layer_step_scale atan2 g vp1 vp2 rest pos l d1 Hfd Hd1 Hvp).
    eexists. split; [reflexivity|].
    split; [now apply free_dragging_moved|].
    split; intros _; apply clamp_scale_2_within.
Qed.

(** C4: wheel ticks keep a [layer_scale] that starts in [0.1, 5.0] inside
    [0.1, 5.0], whatever layer is current at each tick; and a run of
    layer-drag moves on a layer in layer-drag mode always completes, keeps
    a [layer_scale] that starts in [0.1, 2.0] inside [0.1, 2.0], and ends
    inside [0.1, 2.0] from any starting value as soon as its last move
    derives the scale (two vanishing points in the grid). *)
Theorem layer_scale_stays_in_range (deltas : list Z) (ed : VanishingPointEditor) (i : nat)
    (l : PerspectiveLayer) (moves : list (PerspectiveGrid * QPoint))
    (g : PerspectiveGrid) (pos : QPoint) (dl : PerspectiveLayer) :
  layers ed !! i = Some l -> PyFloat.within 0.1 5 (layer_scale l) ->
  free_dragging dl ->
  (exists l', layers (wheel_steps deltas ed) !! i = Some l'
              /\ PyFloat.within 0.1 5 (layer_scale l'))
  /\ (exists dl', drag_steps atan2 moves dl = Some dl'
        /\ (PyFloat.within 0.1 2 (layer_scale dl) -> PyFloat.within 0.1 2 (layer_scale dl')))
  /\ ((2 <= length (primary_vp g))%nat ->
      exists dl', drag_steps atan2 (moves ++ [(g, pos)]) dl = Some dl'
        /\ PyFloat.within 0.1 2 (layer_scale dl')).
Proof.
  intros Hl Hin Hfd. split; [now apply (wheel_steps_scale_range deltas ed i l)|].
  assert (Hrun : forall ms dl0, free_dragging dl0 ->
            exists dl', drag_steps atan2 ms dl0 = Some dl' /\ free_dragging dl'
              /\ (PyFloat.within 0.1 2 (layer_scale dl0) ->
                  PyFloat.within 0.1 2 (layer_scale dl'))).
  { induction ms as [|[g1 p1] ms IH]; intros dl0 H0; [now exists dl0|].
    destruct (free_dragging_step_total g1 p1 dl0 H0) as (l1 & E1 & F1 & _ & K1).
    destruct (IH l1 F1) as (l2 & E2 & F2 & K2).
    exists l2. simpl. rewrite E1. simpl.
    split; [exact E2|]. split; [exact F2|]. intros H. apply K2, K1, H. }
  split.
  - destruct (Hrun moves dl Hfd) as (dl' & E & _ & K). now exists dl'.
  - intros Hvp. revert dl Hfd. induction moves as [|[g1 p1] ms IH]; intros dl Hfd.
    + destruct (free_dragging_step_total g pos dl Hfd) as (l1 & E1 & _ & K & _).
      exists l1. simpl. rewrite E1. split; [reflexivity|auto].
    + destruct (free_dragging_step_total g1 p1 dl Hfd) as (l1 & E1 & F1 & _).
      destruct (IH l1 F1) as (l2 & E2 & K2).
      exists l2. simpl. rewrite E1. simpl. auto.
Qed.

End ScaleRange.

(** ** Clearing the points *)

Section ClearPoints.

Import EditorOps CanvasOps.
Variable atan2 : float -> float -> float.

(** C10: [clear_points] on an editor with a current layer empties that
    layer's [points] and [selection_points] and the grid's [primary_vp],
    the one pair every layer's drag and the grid drawing read; every other
    field of that layer, every other layer, the rest of the grid, the
    selection and the canvas are as before.  Afterwards a layer-drag move
    on any layer leaves its [layer_scale] alone and [draw_grid] draws
    nothing. *)
Theorem clear_points_empties_shared_vp (ed : VanishingPointEditor) (l : PerspectiveLayer) :
  get_current_layer ed = Some l ->
  let ed' := clear_points ed in
  let n := Z.to_nat (current_layer_idx ed) in
  primary_vp (grid ed') = []
  /\ grid ed' = set_primary_vp [] (grid ed)
  /\ layers ed' !! n =
       Some {| name := name l; original_image := original_image l;
               warped_image := warped_image l; visible := visible l;
               points := []; warp_points := warp_points l; z_order := z_order l;
               opacity := opacity l; selection_points := [];
               position := position l; source_vp := source_vp l;
               original_width := original_width l;
               original_height := original_height l; drag_offset := drag_offset l;
               layer_drag_mode := layer_drag_mode l; layer_scale := layer_scale l;
               layer_position := layer_position l;
               drag_layer_image := drag_layer_image l;
               initial_center := initial_center l;
               initial_vp2_distance := initial_vp2_distance l;
               initial_vp1_distance := initial_vp1_distance l |}
  /\ (forall j, j <> n -> layers ed' !! j = layers ed !! j)
  /\ length (layers ed') = length (layers ed)
  /\ current_layer_idx ed' = current_layer_idx ed
  /\ control_point_mode ed' = control_point_mode ed
  /\ canvas ed' = canvas ed
  /\ draw_grid ed' = []
  /\ (forall pos l0, exists l1,
        drag_layer_step atan2 (grid ed') pos l0 = Some l1
        /\ layer_scale l1 = layer_scale l0).
Proof.
  intros Hcur ed' n.
  assert (Hn : layers ed !! n = Some l).
  { unfold get_current_layer in Hcur.
    destruct ((0 <=? current_layer_idx ed)
              && (current_layer_idx ed <? Z.of_nat (length (layers ed))));
      [exact Hcur|discriminate]. }
  pose proof (lookup_lt_Some _ _ _ Hn) as Hlt.
  assert (Hed : ed' = set_grid (set_primary_vp [] (grid ed))
                        (store_layer n (set_selection_points [] (set_points [] l)) ed)).
  { unfold ed', clear_points. now rewrite Hcur. }
  rewrite Hed. simpl.
  split; [reflexivity|]. split; [reflexivity|].
  split; [now rewrite list_lookup_insert_eq|].
  split; [intros j Hj; now rewrite list_lookup_insert_ne|].
  split; [apply length_insert|].
  split; [reflexivity|]. split; [reflexivity|]. split; [reflexivity|].
  split.
  - unfold draw_grid. simpl.
    destruct (get_current_layer (set_grid _ _)) as [l0|]; [|reflexivity].
    now destruct (length (points l0) <? 4)%nat.
  - intros pos l0. unfold drag_layer_step. simpl.
    destruct (layer_drag_mode l0 && _); eexists; split; reflexivity.
Qed.

End ClearPoints.

(** ** Extracting the selection *)

Section ExtractSelection.

Import CanvasOps.
Variable atan2 : float -> float -> float.
Variable extract_quad : QImage -> list QPoint -> Z -> Z -> option QImage.

Lemma insert_by_Permutation {A K} (lt : K -> K -> bool) (key : A -> K) a l :
  insert_by lt key a l ≡ₚ a :: l.
Proof.
  induction l as [|b l IH]; simpl; [reflexivity|].
  destruct (lt (key b) (key a)); [|reflexivity].
  rewrite IH. apply Permutation_swap.
Qed.

Lemma sort_by_Permutation {A K} (lt : K -> K -> bool) (key : A -> K) l :
  sort_by lt key l ≡ₚ l.
Proof.
  induction l as [|a l IH]; [reflexivity|].
  unfold sort_by in *. simpl. rewrite insert_by_Permutation. now rewrite IH.
Qed.

Lemma foldl_min_spec l a :
  let m := foldl Z.min a l in
  (m = a \/ m ∈ l) /\ m <= a /\ (forall z, z ∈ l -> m <= z).
Proof.
  revert a. induction l as [|b l IH]; intros a; simpl.
  - split; [now left|]. split; [lia|]. intros z Hz. inversion Hz.
  - destruct (IH (Z.min a b)) as (Hin & Hle & Hlb).
    set (m := foldl Z.min (Z.min a b) l) in *. split; [|split].
    + destruct Hin as [Heq|Hin]; [|right; now right].
      destruct (Z.min_spec a b) as [[_ E]|[_ E]].
      * left. lia.
      * right. replace m with b by lia. left.
    + lia.
    + intros z Hz. apply elem_of_cons in Hz as [->|Hz]; [lia|now apply Hlb].
Qed.

Lemma foldl_max_spec l a :
  let m := foldl Z.max a l in
  (m = a \/ m ∈ l) /\ a <= m /\ (forall z, z ∈ l -> z <= m).
Proof.
  revert a. induction l as [|b l IH]; intros a; simpl.
  - split; [now left|]. split; [lia|]. intros z Hz. inversion Hz.
  - destruct (IH (Z.max a b)) as (Hin & Hle & Hlb).
    set (m := foldl Z.max (Z.max a b) l) in *. split; [|split].
    + destruct Hin as [Heq|Hin]; [|right; now right].
      destruct (Z.max_spec a b) as [[_ E]|[_ E]].
      * right. replace m with b by lia. left.
      * left. lia.
    + lia.
    + intros z Hz. apply elem_of_cons in Hz as [->|Hz]; [lia|now apply Hlb].
Qed.

Lemma py_min_list_spec l m :
  py_min_list l = Some m -> m ∈ l /\ (forall z, z ∈ l -> m <= z).
Proof.
  destruct l as [|a l]; [discriminate|]. intros [= <-].
  destruct (foldl_min_spec l a) as (Hin & Hle & Hlb). split.
  - destruct Hin as [->|Hin]; [left|now right].
  - intros z Hz. apply elem_of_cons in Hz as [->|Hz]; [exact Hle|now apply Hlb].
Qed.

Lemma py_max_list_spec l m :
  py_max_list l = Some m -> m ∈ l /\ (forall z, z ∈ l -> z <= m).
Proof.
  destruct l as [|a l]; [discriminate|]. intros [= <-].
  destruct (foldl_max_spec l a) as (Hin & Hle & Hlb). split.
  - destruct Hin as [->|Hin]; [left|now right].
  - intros z Hz. apply elem_of_cons in Hz as [->|Hz]; [exact Hle|now apply Hlb].
Qed.

Lemma py_min_list_Permutation l l' : l ≡ₚ l' -> py_min_list l = py_min_list l'.
Proof.
  intros Hp. destruct (py_min_list l) as [m|] eqn:E, (py_min_list l') as [m'|] eqn:E'.
  - apply py_min_list_spec in E as [Hin Hlb], E' as [Hin' Hlb'].
    f_equal. apply Z.le_antisymm.
    + apply Hlb. now rewrite Hp.
    + apply Hlb'. now rewrite <- Hp.
  - destruct l' as [|? ?]; [|discriminate].
    apply Permutation_nil_r in Hp. subst. discriminate.
  - destruct l as [|? ?]; [|discriminate].
    symmetry in Hp. apply Permutation_nil_r in Hp. subst. discriminate.
  - reflexivity.
Qed.

Lemma py_max_list_Permutation l l' : l ≡ₚ l' -> py_max_list l = py_max_list l'.
Proof.
  intros Hp. destruct (py_max_list l) as [m|] eqn:E, (py_max_list l') as [m'|] eqn:E'.
  - apply py_max_list_spec in E as [Hin Hlb], E' as [Hin' Hlb'].
    f_equal. apply Z.le_antisymm.
    + apply Hlb'. now rewrite <- Hp.
    + apply Hlb. now rewrite Hp.
  - destruct l' as [|? ?]; [|discriminate].
    apply Permutation_nil_r in Hp. subst. discriminate.
  - destruct l as [|? ?]; [|discriminate].
    symmetry in Hp. apply Permutation_nil_r in Hp. subst. discriminate.
  - reflexivity.
Qed.

Lemma bbox_sort_points q :
  bbox_width (sort_points atan2 q) = bbox_width q
  /\ bbox_height (sort_points atan2 q) = bbox_height q.
Proof.
  assert (Hp : sort_points atan2 q ≡ₚ q) by apply sort_by_Permutation.
  unfold bbox_width, bbox_height.
  rewrite (py_min_list_Permutation _ _ (Permutation_map QPoint.x Hp)).
  rewrite (py_max_list_Permutation _ _ (Permutation_map QPoint.x Hp)).
  rewrite (py_min_list_Permutation _ _ (Permutation_map QPoint.y Hp)).
  rewrite (py_max_list_Permutation _ _ (Permutation_map QPoint.y Hp)).
  split; reflexivity.
Qed.

(** C7: when the bounding box of a four-point selection has width or
    height zero (or less), [copy_selection_to_drag_layer] returns with
    [drag_layer_image] set to [None] and nothing else changed, before the
    image pipeline is reached: no image is produced and nothing is
    raised, whatever the pixmap and whatever the pipeline would do. *)
Theorem degenerate_selection_leaves_no_drag_image (c : Canvas) (l : PerspectiveLayer)
    (p1 p2 p3 p4 : QPoint) (w h : Z) :
  selection_points l = [p1; p2; p3; p4] ->
  bbox_width (selection_points l) = Some w ->
  bbox_height (selection_points l) = Some h ->
  w <= 0 \/ h <= 0 ->
  copy_selection_to_drag_layer atan2 extract_quad c l = set_drag_layer_image None l
  /\ drag_layer_image (copy_selection_to_drag_layer atan2 extract_quad c l) = None.
Proof.
  intros Hsel Hw Hh Hbox.
  assert (E : copy_selection_to_drag_layer atan2 extract_quad c l
              = set_drag_layer_image None l); [|now rewrite E].
  destruct (bbox_sort_points (selection_points l)) as [Hw' Hh'].
  rewrite Hw in Hw'. rewrite Hh in Hh'.
  unfold copy_selection_to_drag_layer. rewrite Hsel in *.
  unfold bbox_width, bbox_height in Hw', Hh'.
  destruct (py_min_list (map QPoint.x _)) as [min_x|]; [|reflexivity].
  destruct (py_max_list (map QPoint.x _)) as [max_x|]; [|reflexivity].
  destruct (py_min_list (map QPoint.y _)) as [min_y|]; [|reflexivity].
  destruct (py_max_list (map QPoint.y _)) as [max_y|]; [|reflexivity].
  simpl in Hw', Hh'. injection Hw' as ->. injection Hh' as ->.
  replace ((w <=? 0) || (h <=? 0)) with true; [reflexivity|].
  symmetry. apply orb_true_iff. destruct Hbox; [left|right]; now apply Z.leb_le.
Qed.

End ExtractSelection.

(** ** Constrained corner drag *)

Section ConstrainedDrag.

Import CanvasOps.


Lemma py_setitem_length {A} (wp : list A) i v wp' :
  py_setitem wp i v = Some wp' -> length wp' = length wp.
Proof.
  unfold py_setitem. destruct (py_index wp i); [|discriminate].
  intros [= <-]. apply length_insert.
Qed.





End ConstrainedDrag.

(** ** Entering layer-drag mode *)

Section EnterDragMode.

Import EditorOps CanvasOps.
Variable atan2 : float -> float -> float.
Variable extract_quad : QImage -> list QPoint -> Z -> Z -> option QImage.

Lemma get_current_layer_lookup ed l :
  get_current_layer ed = Some l ->
  layers ed !! Z.to_nat (current_layer_idx ed) = Some l.
Proof.
  unfold get_current_layer.
  now destruct ((0 <=? current_layer_idx ed)
                && (current_layer_idx ed <? Z.of_nat (length (layers ed)))).
Qed.

Lemma get_current_layer_store ed l l' :
  get_current_layer ed = Some l ->
  get_current_layer (store_layer (Z.to_nat (current_layer_idx ed)) l' ed) = Some l'.
Proof.
  intros H. pose proof (get_current_layer_lookup ed l H) as Hl.
  apply lookup_lt_Some in Hl. unfold get_current_layer in *. simpl.
  rewrite length_insert.
  destruct ((0 <=? current_layer_idx ed)
            && (current_layer_idx ed <? Z.of_nat (length (layers ed))));
    [|discriminate].
  now apply list_lookup_insert_eq.
Qed.

Lemma copy_selection_to_drag_layer_frame c l :
  exists o, copy_selection_to_drag_layer atan2 extract_quad c l
            = set_drag_layer_image o l.
Proof.
  unfold copy_selection_to_drag_layer.
  repeat match goal with |- context [match ?t with _ => _ end] => destruct t end;
    eauto.
Qed.

(** X16: whenever [toggle_layer_drag_mode] switches the mode on, it leaves the
    current layer with a drag image, both baseline distances stored and
    scale 1.0: the state [free_dragging] describes. *)
Lemma toggle_layer_drag_mode_enters ed ed' l l' :
  get_current_layer ed = Some l -> layer_drag_mode l = false ->
  toggle_layer_drag_mode atan2 extract_quad ed = Some ed' ->
  get_current_layer ed' = Some l' -> layer_drag_mode l' = true ->
  free_dragging l' /\ layer_scale l' = 1%float.
Proof.
  intros Hcur Hoff Htog Hcur' Hon. unfold toggle_layer_drag_mode in Htog.
  rewrite Hcur in Htog.
  destruct (length (selection_points l) =? 4)%nat eqn:Hsel; simpl in Htog;
    [|injection Htog as <-; congruence].
  bind_step Htog. injection Htog as <-.
  rewrite (get_current_layer_store ed l p Hcur) in Hcur'. injection Hcur' as ->.
  simpl in E. rewrite Hoff in E. simpl in E.
  destruct (copy_selection_to_drag_layer_frame (canvas ed) (set_layer_drag_mode true l))
    as [o Hcopy].
  rewrite Hcopy in E. simpl in E. rewrite Hsel in E.
  destruct o as [img|]; [|injection E as <-; simpl in Hon; discriminate].
  bind_step E. injection E as <-. bind_step E0.
  unfold free_dragging.
  destruct (primary_vp (grid ed)) as [|vp1 [|vp2 rest]];
    injection E0 as <-; simpl; eauto.
Qed.

End EnterDragMode.

(** ** Worked instances *)




Lemma layer_scale_stays_in_range_witness :
  (exists l', layers (wheel_steps [120; 120; -120; 120; 120; 120; 120] dragged_editor)
                !! 0%nat = Some l'
              /\ PyFloat.within 0.1 5 (layer_scale l'))
  /\ (exists dl', drag_steps axis_atan2 [(new_grid, ⟨10, 10⟩)] dragged_layer = Some dl'
        /\ (PyFloat.within 0.1 2 (layer_scale dragged_layer) ->
            PyFloat.within 0.1 2 (layer_scale dl')))
  /\ ((2 <= length (primary_vp dragged_grid))%nat ->
      exists dl', drag_steps axis_atan2
                    ([(new_grid, ⟨10, 10⟩)] ++ [(dragged_grid, ⟨550, 200⟩)])
                    dragged_layer = Some dl'
        /\ PyFloat.within 0.1 2 (layer_scale dl')).
Proof.
  apply (layer_scale_stays_in_range axis_atan2
           [120; 120; -120; 120; 120; 120; 120] dragged_editor 0%nat dragged_layer
           [(new_grid, ⟨10, 10⟩)] dragged_grid ⟨550, 200⟩ dragged_layer).
  - reflexivity.
  - split; vm_compute; reflexivity.
  - repeat split; simpl; eauto.
Defined.

Lemma degenerate_selection_leaves_no_drag_image_witness :
  let flat := set_selection_points [⟨0, 7⟩; ⟨10, 7⟩; ⟨20, 7⟩; ⟨5, 7⟩] dragged_layer in
  CanvasOps.copy_selection_to_drag_layer axis_atan2 whole_box new_canvas flat
  = set_drag_layer_image None flat
  /\ drag_layer_image
       (CanvasOps.copy_selection_to_drag_layer axis_atan2 whole_box new_canvas flat) = None.
Proof.
  intros flat.
  apply (degenerate_selection_leaves_no_drag_image axis_atan2 whole_box new_canvas flat
           ⟨0, 7⟩ ⟨10, 7⟩ ⟨20, 7⟩ ⟨5, 7⟩ 20 0).
  - reflexivity.
  - reflexivity.
  - reflexivity.
  - right. lia.
Defined.

Lemma clear_points_empties_shared_vp_witness :
  primary_vp (grid (EditorOps.clear_points dragged_editor)) = []
  /\ CanvasOps.draw_grid (EditorOps.clear_points dragged_editor) = []
  /\ CanvasOps.draw_grid dragged_editor <> [].
Proof.
  destruct (clear_points_empties_shared_vp axis_atan2 dragged_editor dragged_layer eq_refl)
    as (Hvp & _ & _ & _ & _ & _ & _ & _ & Hdraw & _).
  split; [exact Hvp|]. split; [exact Hdraw|]. vm_compute. discriminate.
Defined.

Lemma toggle_layer_drag_mode_enters_witness :
  exists ed' l',
    CanvasOps.toggle_layer_drag_mode axis_atan2 whole_box marked_editor = Some ed'
    /\ EditorOps.get_current_layer ed' = Some l'
    /\ free_dragging l' /\ layer_scale l' = 1%float.
Proof.
  eexists. eexists. split; [vm_compute; reflexivity|].
  split; [vm_compute; reflexivity|].
  eapply (toggle_layer_drag_mode_enters axis_atan2 whole_box marked_editor).
  - reflexivity.
  - reflexivity.
  - vm_compute. reflexivity.
  - vm_compute. reflexivity.
  - reflexivity.
Defined.

(** The trapezoid (100,100), (300,100), (320,250), (80,250): its top and
    bottom edges are parallel, so the first vanishing point is the far
    point (10000, 10000); the second, where the slanted sides meet, is
    (200, -650), above the shape. *)
Example trapezoid_vanishing_points :
  recomputed_vp [⟨100, 100⟩; ⟨300, 100⟩; ⟨320, 250⟩; ⟨80, 250⟩]
  = Some [⟨10000, 10000⟩; ⟨200, -650⟩].
Proof. vm_compute. reflexivity. Qed.

(** ** More of the order on binary64 values *)

Section FloatOrderTransitive.

Lemma compare_cont_Eq p q : PosDef.Pos.compare_cont Eq p q = (p ?= q)%positive.
Proof. reflexivity. Qed.

Ltac order_cases :=
  repeat match goal with
  | H : context [(?a ?= ?b)%Z] |- _ => destruct (Z.compare_spec a b)
  | |- context [(?a ?= ?b)%Z] => destruct (Z.compare_spec a b)
  | H : context [(?a ?= ?b)%positive] |- _ => destruct (Pos.compare_spec a b)
  | |- context [(?a ?= ?b)%positive] => destruct (Pos.compare_spec a b)
  end.

Lemma SFcompare_le_trans a b c x y :
  SFcompare a b = Some x -> x <> Gt ->
  SFcompare b c = Some y -> y <> Gt ->
  exists z, SFcompare a c = Some z /\ z <> Gt /\ (x = Lt \/ y = Lt -> z = Lt).
Proof.
  destruct a as [sa|sa| |sa ma ea], b as [sb|sb| |sb mb eb], c as [sc|sc| |sc mc ec];
    simpl; try discriminate;
    try destruct sa; try destruct sb; try destruct sc; simpl;
    intros H1 N1 H2 N2;
    try (injection H1 as <-); try (injection H2 as <-);
    try congruence;
    try (eexists; split; [reflexivity|]; split; [discriminate|]; intuition congruence).
  all: rewrite ?compare_cont_Eq in *.
  all: eexists; (split; [reflexivity|]).
  all: order_cases; simpl in *; subst; try congruence; try lia.
  all: try (split; [discriminate || congruence|]; intuition (congruence || lia)).
  all: change (PosDef.Pos.compare_cont Eq mc mc) with (mc ?= mc)%positive;
    rewrite Pos.compare_refl; simpl; split; [discriminate|]; intuition congruence.
Qed.

Lemma leb_trans x y z :
  (x <=? y)%float = true -> (y <=? z)%float = true -> (x <=? z)%float = true.
Proof.
  rewrite !leb_spec. unfold SFleb.
  destruct (SFcompare (Prim2SF x) (Prim2SF y)) as [c1|] eqn:E1; [|discriminate].
  destruct (SFcompare (Prim2SF y) (Prim2SF z)) as [c2|] eqn:E2; [|destruct c1; discriminate].
  intros H1 H2.
  destruct (SFcompare_le_trans _ _ _ _ _ E1 ltac:(destruct c1; congruence)
              E2 ltac:(destruct c2; congruence)) as (c & -> & Hc & _).
  now destruct c.
Qed.

Lemma ltb_leb_trans x y z :
  (x <? y)%float = true -> (y <=? z)%float = true -> (x <? z)%float = true.
Proof.
  rewrite !ltb_spec, leb_spec. unfold SFleb, SFltb.
  destruct (SFcompare (Prim2SF x) (Prim2SF y)) as [c1|] eqn:E1; [|discriminate].
  destruct (SFcompare (Prim2SF y) (Prim2SF z)) as [c2|] eqn:E2; [|destruct c1; discriminate].
  intros H1 H2.
  destruct (SFcompare_le_trans _ _ _ _ _ E1 ltac:(destruct c1; congruence)
              E2 ltac:(destruct c2; congruence)) as (c & -> & Hc & Hlt).
  rewrite Hlt; [reflexivity|]. left. now destruct c1.
Qed.

Lemma ltb_trans x y z :
  (x <? y)%float = true -> (y <? z)%float = true -> (x <? z)%float = true.
Proof. intros H1 H2. apply (ltb_leb_trans x y z H1). now apply ltb_leb. Qed.

Lemma ltb_irrefl x : (x <? x)%float = false.
Proof.
  rewrite ltb_spec. unfold SFltb.
  destruct (Prim2SF x) as [s|s| |s m e] eqn:E; simpl; try reflexivity.
  - now destruct s.
  - rewrite Z.compare_refl. change (PosDef.Pos.compare_cont Eq m m) with (m ?= m)%positive.
    rewrite Pos.compare_refl. now destruct s.
Qed.


End FloatOrderTransitive.

(** ** What every reachable state satisfies *)

Section ReachableInvariant.

Import EditorOps CanvasOps EditorControls CanvasInput.
Variable atan2 hypot : float -> float -> float.
Variable extract_quad : QImage -> list QPoint -> Z -> Z -> option QImage.

Lemma within_2_within_5 r : PyFloat.within 0.1 2 r -> PyFloat.within 0.1 5 r.
Proof.
  intros [H1 H2]. split; [exact H1|]. now apply (leb_trans r 2 5).
Qed.

Lemma within_nonzero r : PyFloat.within 0.1 5 r -> (r =? 0)%float = false.
Proof.
  intros [H1 _]. revert H1. rewrite leb_spec, FloatAxioms.eqb_spec.
  unfold SFleb, SFeqb. change (Prim2SF 0.1) with (S754_finite false 7205759403792794 (-56)).
  change (Prim2SF 0) with (S754_zero false).
  destruct (Prim2SF r) as [s|s| |s m e]; simpl; try discriminate; destruct s;
    try discriminate; reflexivity.
Qed.

Lemma py_setitem_Some_lt {A} (l : list A) i v l' :
  py_setitem l i v = Some l' -> (i <? Z.of_nat (length l)) = true.
Proof.
  unfold py_setitem, py_index. intros H.
  destruct (i <? 0) eqn:Hneg;
    destruct ((0 <=? _) && (_ <? Z.of_nat (length l))) eqn:G; try discriminate;
    apply andb_true_iff in G as [G1 G2]; lia.
Qed.

Lemma new_layer_inv nm z : layer_inv (set_z_order z (new_layer nm)).
Proof.
  unfold layer_inv. simpl. repeat split; try reflexivity; try lia; discriminate.
Qed.

Lemma z_indexed_insert ls i l l0 :
  z_indexed ls -> ls !! i = Some l0 -> z_order l = z_order l0 ->
  z_indexed (<[i := l]> ls).
Proof.
  intros Hz Hl0 Hzo j lj. destruct (decide (i = j)) as [->|Hne].
  - rewrite list_lookup_insert_eq by (now apply lookup_lt_Some in Hl0).
    intros [= <-]. rewrite Hzo. now apply Hz.
  - rewrite list_lookup_insert_ne by done. apply Hz.
Qed.

Lemma editor_inv_store ed i l l0 :
  editor_inv ed -> layers ed !! i = Some l0 ->
  layer_inv l -> z_order l = z_order l0 ->
  editor_inv (store_layer i l ed).
Proof.
  intros (Hl & Hg & Hc & Hz) Hl0 Hinv Hzo. repeat split; simpl; auto.
  - now apply Forall_insert.
  - apply (proj1 Hc).
  - apply (proj2 Hc).
  - now apply (z_indexed_insert _ _ _ l0).
Qed.

Lemma editor_inv_layer ed i l :
  editor_inv ed -> layers ed !! i = Some l -> layer_inv l.
Proof. intros (Hl & _) Hi. now apply (Forall_lookup_1 _ _ _ _ Hl Hi). Qed.

Lemma editor_inv_current ed l :
  editor_inv ed -> get_current_layer ed = Some l -> layer_inv l.
Proof.
  intros H Hc.
  apply (editor_inv_layer ed (Z.to_nat (current_layer_idx ed)) l H).
  now apply get_current_layer_lookup.
Qed.

Lemma calculate_grid_inv g pts r g' :
  GridOps.calculate_two_point_perspective g pts = Some (r, g') ->
  grid_inv g -> grid_inv g'.
Proof.
  unfold GridOps.calculate_two_point_perspective. intros H Hg.
  destruct pts as [|p1 [|p2 [|p3 [|p4 [|p5 rest]]]]];
    try (injection H as <- <-; exact Hg).
  bind_step H. bind_step H. injection H as <- <-.
  match goal with |- context [GridOps.valid_vp ?v1 && GridOps.valid_vp ?v2] =>
    destruct (GridOps.valid_vp v1) eqn:V1; simpl; [|now left];
    destruct (GridOps.valid_vp v2) eqn:V2; simpl; [|now left];
    right; now exists v1, v2
  end.
Qed.

Lemma editor_inv_canvas ed c :
  editor_inv ed -> scale_factor c = scale_factor (canvas ed) ->
  editor_inv (set_canvas c ed).
Proof.
  intros (Hl & Hg & Hc & Hz) E. repeat split; simpl; auto; rewrite E; apply Hc.
Qed.

Lemma add_layer_inv nm ed : editor_inv ed -> editor_inv (add_layer nm ed).
Proof.
  intros (Hl & Hg & Hc & Hz). split; [|split; [|split]]; simpl; auto.
  - apply Forall_app. split; [exact Hl|]. constructor; [apply new_layer_inv|constructor].
  - exact (apply_op_z_indexed ed (AddLayer nm) Hz).
Qed.

Lemma layer_inv_bump d l : layer_inv l -> layer_inv (bump_z_order d l).
Proof. exact (fun H => H). Qed.

Lemma move_layer_up_inv ed : editor_inv ed -> editor_inv (move_layer_up ed).
Proof.
  intros H. pose proof H as (Hl & Hg & Hc & Hz).
  split; [|split; [|split]].
  - destruct (move_layer_up_cases ed) as [->|(n & a & b & Hi & Ha & Hb)]; [exact Hl|].
    rewrite (move_layer_up_layers ed n a b Hi Ha Hb). simpl.
    apply Forall_insert; [apply Forall_insert; [exact Hl|]|];
      apply layer_inv_bump; eapply editor_inv_layer; eauto.
  - destruct (move_layer_up_cases ed) as [->|(n & a & b & Hi & Ha & Hb)]; [exact Hg|].
    now rewrite (move_layer_up_layers ed n a b Hi Ha Hb).
  - destruct (move_layer_up_cases ed) as [->|(n & a & b & Hi & Ha & Hb)]; [exact Hc|].
    now rewrite (move_layer_up_layers ed n a b Hi Ha Hb).
  - exact (apply_op_z_indexed ed MoveUp Hz).
Qed.

Lemma move_layer_down_inv ed : editor_inv ed -> editor_inv (move_layer_down ed).
Proof.
  intros H. pose proof H as (Hl & Hg & Hc & Hz).
  split; [|split; [|split]].
  - destruct (move_layer_down_cases ed) as [->|(n & a & b & Hi & Ha & Hb)]; [exact Hl|].
    rewrite (move_layer_down_layers ed n a b Hi Ha Hb). simpl.
    apply Forall_insert; [apply Forall_insert; [exact Hl|]|];
      apply layer_inv_bump; eapply editor_inv_layer; eauto.
  - destruct (move_layer_down_cases ed) as [->|(n & a & b & Hi & Ha & Hb)]; [exact Hg|].
    now rewrite (move_layer_down_layers ed n a b Hi Ha Hb).
  - destruct (move_layer_down_cases ed) as [->|(n & a & b & Hi & Ha & Hb)]; [exact Hc|].
    now rewrite (move_layer_down_layers ed n a b Hi Ha Hb).
  - exact (apply_op_z_indexed ed MoveDown Hz).
Qed.

Lemma clear_points_inv ed : editor_inv ed -> editor_inv (clear_points ed).
Proof.
  intros H. unfold clear_points.
  destruct (get_current_layer ed) as [l|] eqn:Hcur; [|exact H].
  pose proof (editor_inv_current ed l H Hcur) as (_ & _ & Hrest).
  pose proof (get_current_layer_lookup ed l Hcur) as Hl.
  assert (H1 : editor_inv (store_layer (Z.to_nat (current_layer_idx ed))
                             (set_selection_points [] (set_points [] l)) ed)).
  { apply (editor_inv_store ed _ _ l H Hl); [|reflexivity].
    split; [reflexivity|]. split; [simpl; lia|]. exact Hrest. }
  destruct H1 as (A & B & C & D). repeat split; simpl; auto; try apply C. now left.
Qed.

Lemma calculate_vanishing_points_inv ed ed' :
  editor_inv ed -> calculate_vanishing_points ed = Some ed' -> editor_inv ed'.
Proof.
  intros H. unfold calculate_vanishing_points.
  destruct (get_current_layer ed) as [l|]; [|now intros [= <-]].
  destruct (length (points l) =? 4)%nat; [|now intros [= <-]].
  intros E. bind_step E.
  match goal with p : (list QPoint * PerspectiveGrid)%type |- _ => destruct p as [r g] end.
  injection E as <-.
  destruct H as (A & B & C & D). repeat split; simpl; auto; try apply C.
  eapply calculate_grid_inv; eauto.
Qed.

Lemma wheelEvent_inv d ed : editor_inv ed -> editor_inv (wheelEvent d ed).
Proof.
  intros H. unfold wheelEvent.
  assert (Hview : editor_inv
            (set_canvas (set_scale_factor
               (clamp_scale 5 (scale_factor (canvas ed) * wheel_factor d)%float)
               (canvas ed)) ed)).
  { destruct H as (A & B & C & D). repeat split; simpl; auto;
      apply clamp_scale_5_within. }
  destruct (get_current_layer ed) as [l|] eqn:Hcur; [|exact Hview].
  destruct (layer_drag_mode l && _); [|exact Hview].
  pose proof (editor_inv_current ed l H Hcur) as (I1 & I2 & I3 & I4 & I5 & I6 & I7 & I8).
  apply (editor_inv_store ed _ _ l H (get_current_layer_lookup ed l Hcur)); [|reflexivity].
  repeat split; simpl; auto; try apply clamp_scale_5_within; now apply I8.
Qed.

Lemma scale_image_inv f ed : editor_inv ed -> editor_inv (scale_image f ed).
Proof.
  intros (A & B & C & D). repeat split; simpl; auto; apply clamp_scale_5_within.
Qed.

Lemma upload_image_inv picked ed : editor_inv ed -> editor_inv (upload_image picked ed).
Proof.
  intros H. unfold upload_image.
  destruct (get_current_layer ed) as [l|] eqn:Hcur; [|exact H].
  destruct picked as [[img pix]|]; [|exact H].
  pose proof (editor_inv_current ed l H Hcur) as Hl.
  assert (H1 : editor_inv (store_layer (Z.to_nat (current_layer_idx ed))
            (set_warped_image (Some img) (set_original_image (Some img) l)) ed)).
  { apply (editor_inv_store ed _ _ l H (get_current_layer_lookup ed l Hcur));
      [exact Hl|reflexivity]. }
  simpl. destruct (pixmap (canvas ed)); [exact H1|].
  now apply editor_inv_canvas.
Qed.

Lemma toggle_layer_drag_mode_inv ed ed' :
  editor_inv ed ->
  toggle_layer_drag_mode atan2 extract_quad ed = Some ed' -> editor_inv ed'.
Proof.
  intros H Htog. unfold toggle_layer_drag_mode in Htog.
  destruct (get_current_layer ed) as [l|] eqn:Hcur; [|now injection Htog as <-].
  destruct (length (selection_points l) =? 4)%nat eqn:Hsel; simpl in Htog;
    [|now injection Htog as <-].
  bind_step Htog. injection Htog as <-.
  pose proof (editor_inv_current ed l H Hcur) as (I1 & I2 & I3 & I4 & I5 & I6 & I7 & I8).
  apply (editor_inv_store ed _ _ l H (get_current_layer_lookup ed l Hcur)).
  2:{ simpl in E. destruct (negb (layer_drag_mode l)).
      - destruct (copy_selection_to_drag_layer_frame atan2 extract_quad (canvas ed)
                    (set_layer_drag_mode true l)) as [o Hcopy].
        rewrite Hcopy in E. simpl in E. rewrite Hsel in E.
        destruct o; [|now injection E as <-].
        bind_step E. injection E as <-. bind_step E0.
        destruct (primary_vp (grid ed)) as [|? [|? ?]]; now injection E0 as <-.
      - now injection E as <-. }
  simpl in E. destruct (layer_drag_mode l) eqn:Hmode; simpl in E.
  - injection E as <-. repeat split; simpl; auto; try apply I7; discriminate.
  - destruct (copy_selection_to_drag_layer_frame atan2 extract_quad (canvas ed)
                (set_layer_drag_mode true l)) as [o Hcopy].
    rewrite Hcopy in E. simpl in E. rewrite Hsel in E.
    destruct o as [img|].
    + bind_step E. injection E as <-. bind_step E0.
      destruct (primary_vp (grid ed)) as [|? [|? ?]]; injection E0 as <-;
        repeat split; simpl; eauto.
    + injection E as <-. repeat split; simpl; auto; try apply I7; discriminate.
Qed.

End ReachableInvariant.

Section PointerInvariant.

Import EditorOps CanvasOps EditorControls CanvasInput.
Variable atan2 hypot : float -> float -> float.

Ltac split_inv :=
  repeat match goal with
         | |- _ /\ _ => split
         | |- layer_inv _ => unfold layer_inv
         | |- editor_inv _ => unfold editor_inv
         end.

Lemma py_getitem_Some_lt {A} (l : list A) i v :
  py_getitem l i = Some v -> (i <? Z.of_nat (length l)) = true.
Proof.
  unfold py_getitem, py_index. intros H.
  destruct (i <? 0) eqn:Hneg;
    destruct ((0 <=? _) && (_ <? Z.of_nat (length l))) eqn:G; try discriminate;
    apply andb_true_iff in G as [G1 G2]; lia.
Qed.

(** While the two lists are equal, a vertex drag keeps them equal. *)
Lemma drag_vertex_inv g dp pos l l' g' :
  layer_inv l -> grid_inv g ->
  drag_vertex g dp pos l = Some (l', g') ->
  layer_inv l' /\ grid_inv g' /\ z_order l' = z_order l.
Proof.
  intros (I1 & I2 & I3 & I4 & I5 & I6 & I7 & I8) Hg H.
  unfold drag_vertex in H. rewrite I3 in H.
  change ((4 <=? length (@nil QPoint))%nat && bool_decide (source_vp l ≠ [])) with false in H.
  cbv iota in H.
  destruct (4 <=? length (selection_points l))%nat; cbv iota in H.
  - bind_step H. pose proof (py_setitem_Some_lt _ _ _ _ E) as Hlt.
    rewrite I1, Hlt, E in H. simpl in H. injection H as <- <-.
    apply py_setitem_length in E.
    split_inv; simpl; auto. rewrite E, <- I1. exact I2.
  - destruct (0 <? length (points l))%nat; cbv iota in H;
      [|injection H as <- <-; split_inv; auto].
    bind_step H. pose proof (py_setitem_Some_lt _ _ _ _ E) as Hlt.
    rewrite <- I1, Hlt, E in H. simpl in H.
    pose proof (py_setitem_length _ _ _ _ E) as Hlen.
    destruct (length l0 =? 4)%nat.
    + bind_step H. injection H as <- <-.
      destruct (GridOps.calculate_two_point_perspective g l0) as [[r g1]|] eqn:Ec;
        [|discriminate]. injection E0 as <-.
      split_inv; simpl; auto; [lia|]. eapply calculate_grid_inv; eauto.
    + simpl in H. injection H as <- <-. split_inv; simpl; auto. lia.
Qed.

Lemma drag_edge_inv g off de pos l l' g' :
  layer_inv l -> grid_inv g ->
  drag_edge g off de pos l = Some (l', g') ->
  layer_inv l' /\ grid_inv g' /\ z_order l' = z_order l.
Proof.
  intros (I1 & I2 & I3 & I4 & I5 & I6 & I7 & I8) Hg H.
  unfold drag_edge in H. do 2 bind_step H.
  destruct (if _ : bool then _ else _) as [fdx fdy] in H.
  do 2 bind_step H.
  bind_step H. bind_step H.
  match goal with
  | E1 : py_setitem (selection_points l) de ?q1 = Some ?s1,
    E2 : py_setitem ?s1 ((de + 1) mod 4) ?q2 = Some ?s2 |- _ =>
      pose proof (py_setitem_Some_lt _ _ _ _ E1) as Hlt1;
      pose proof (py_setitem_Some_lt _ _ _ _ E2) as Hlt2;
      pose proof (py_setitem_length _ _ _ _ E1) as Hlen1;
      pose proof (py_setitem_length _ _ _ _ E2) as Hlen2;
      rewrite I1, Hlt1, E1 in H; cbn [mbind option_bind] in H;
      rewrite Hlt2, E2 in H; cbn [mbind option_bind] in H
  end.
  destruct (length _ =? 4)%nat.
  - bind_step H. injection H as <- <-.
    match goal with
    | E : snd <$> GridOps.calculate_two_point_perspective g ?s = Some ?g1 |- _ =>
        destruct (GridOps.calculate_two_point_perspective g s) as [[r g2]|] eqn:Ec;
          [|discriminate]; injection E as <-
    end.
    split_inv; simpl; auto; [rewrite Hlen2, Hlen1, <- I1; exact I2|].
    eapply calculate_grid_inv; eauto.
  - cbn [mbind option_bind] in H. injection H as <- <-.
    split_inv; simpl; auto. rewrite Hlen2, Hlen1, <- I1. exact I2.
Qed.

Lemma drag_layer_step_inv g pos l l' :
  layer_inv l -> drag_layer_step atan2 g pos l = Some l' ->
  layer_inv l' /\ z_order l' = z_order l.
Proof.
  intros (I1 & I2 & I3 & I4 & I5 & I6 & I7 & I8) H. unfold drag_layer_step in H.
  destruct (layer_drag_mode l && _) eqn:G.
  - apply andb_true_iff in G as [Gm _].
    destruct (primary_vp g) as [|vp1 [|vp2 rest]];
      try (injection H as <-; split_inv; simpl; auto; now apply I8).
    bind_step H. injection H as <-.
    split_inv; simpl; auto; try (now apply I8);
      apply within_2_within_5, clamp_scale_2_within.
  - injection H as <-. split_inv; simpl; auto; now apply I8.
Qed.

Lemma mouseMoveEvent_inv pos ed ed' :
  editor_inv ed -> mouseMoveEvent atan2 pos ed = Some ed' -> editor_inv ed'.
Proof.
  intros H Hm. unfold mouseMoveEvent in Hm.
  destruct (get_current_layer ed) as [cur|] eqn:Hcur; [|now injection Hm as <-].
  bind_step Hm.
  pose proof (editor_inv_current ed cur H Hcur) as Icur.
  pose proof (get_current_layer_lookup ed cur Hcur) as Hl.
  destruct (dragging_view (canvas ed)); [|now injection Hm as <-].
  destruct (negb (dragging_point (canvas ed) =? -1)).
  { bind_step Hm.
    match goal with p : (PerspectiveLayer * PerspectiveGrid)%type |- _ =>
      destruct p as [l g] end.
    injection Hm as <-.
    destruct (drag_vertex_inv _ _ _ _ _ _ Icur (proj1 (proj2 H)) E0) as (A & B & C).
    pose proof (editor_inv_store ed _ l cur H Hl A C) as (X1 & X2 & X3 & X4).
    split_inv; simpl; auto; apply X3. }
  destruct (negb (dragging_edge (canvas ed) =? -1)).
  { bind_step Hm.
    match goal with p : (PerspectiveLayer * PerspectiveGrid)%type |- _ =>
      destruct p as [l g] end.
    injection Hm as <-.
    destruct (drag_edge_inv _ _ _ _ _ _ _ Icur (proj1 (proj2 H)) E0) as (A & B & C).
    pose proof (editor_inv_store ed _ l cur H Hl A C) as (X1 & X2 & X3 & X4).
    split_inv; simpl; auto; apply X3. }
  destruct (negb (dragging_layer (canvas ed) =? -1)); [|now injection Hm as <-].
  do 3 bind_step Hm. injection Hm as <-.
  match goal with
  | E1 : layers ed !! ?i = Some ?l0, E2 : drag_layer_step atan2 _ _ ?l0 = Some ?l1 |- _ =>
      destruct (drag_layer_step_inv _ _ _ _ (editor_inv_layer ed i l0 H E1) E2) as [A C];
      exact (editor_inv_store ed i l1 l0 H E1 A C)
  end.
Qed.

End PointerInvariant.

Section PressInvariant.

Import EditorOps CanvasOps EditorControls CanvasInput.
Variable atan2 hypot : float -> float -> float.
Variable extract_quad : QImage -> list QPoint -> Z -> Z -> option QImage.

Lemma layer_inv_drag_offset off l : layer_inv l -> layer_inv (set_drag_offset off l).
Proof. intros H. exact H. Qed.

Lemma layer_inv_leave_drag_mode l : layer_inv l -> layer_inv (set_layer_drag_mode false l).
Proof.
  intros (I1 & I2 & I3 & I4 & I5 & I6 & I7 & I8).
  unfold layer_inv; simpl. repeat (split; [assumption|]). discriminate.
Qed.

Lemma layer_inv_mark p l :
  layer_inv l -> (length (points l) <? 4)%nat = true ->
  layer_inv (set_selection_points (selection_points l ++ [p])
               (set_points (points l ++ [p]) l)).
Proof.
  intros (I1 & I2 & I3 & I4 & I5 & I6 & I7 & I8) Hlt.
  apply Nat.ltb_lt in Hlt.
  unfold layer_inv; simpl. split; [now rewrite I1|].
  split; [rewrite length_app; simpl; lia|].
  repeat (split; [assumption|]). exact I8.
Qed.

Lemma mousePressEvent_inv b pos ed ed' :
  editor_inv ed -> mousePressEvent hypot b pos ed = Some ed' -> editor_inv ed'.
Proof.
  intros H Hm. unfold mousePressEvent in Hm.
  destruct (get_current_layer ed) as [cur|] eqn:Hcur; [|now injection Hm as <-].
  bind_step Hm.
  match goal with E : transform_pos _ _ = Some ?sp |- _ => rename sp into o end.
  pose proof (editor_inv_current ed cur H Hcur) as Icur.
  pose proof (get_current_layer_lookup ed cur Hcur) as Hl.
  destruct (negb b); [now injection Hm as <-|].
  destruct (layer_drag_mode cur && _).
  { destruct (is_point_in_layer _ cur); injection Hm as <-.
    - apply editor_inv_canvas; [|reflexivity].
      now apply (editor_inv_store ed _ _ cur).
    - apply (editor_inv_store ed _ _ cur); auto.
      now apply layer_inv_leave_drag_mode. }
  destruct (control_point_mode ed).
  { destruct (negb (find_closest_control_point _ _ _ =? -1));
      [injection Hm as <-; now apply editor_inv_canvas|].
    destruct (negb (find_closest_point _ _ _ =? -1));
      [injection Hm as <-; now apply editor_inv_canvas|].
    bind_step Hm.
    match goal with p : (Z * QPoint)%type |- _ => destruct p as [edge_idx cp] end.
    destruct (negb (edge_idx =? -1)).
    { do 3 bind_step Hm. injection Hm as <-.
      apply editor_inv_canvas; [exact H|].
      match goal with |- context [match ?o with Some _ => _ | None => _ end] =>
        now destruct o end. }
    destruct (negb (find_closest_warp_point _ _ _ =? -1));
      [injection Hm as <-; now apply editor_inv_canvas|].
    destruct (length (points cur) <? 4)%nat eqn:Hlt; [|now injection Hm as <-].
    injection Hm as <-.
    pose proof Icur as (I1 & _).
    assert (Hsel : (length (selection_points cur) <? 4)%nat = true)
      by now rewrite <- I1.
    cbv zeta. simpl selection_points. rewrite Hsel.
    pose proof (layer_inv_mark o cur Icur Hlt) as Inew.
    pose proof (editor_inv_store ed _ _ cur H Hl Inew eq_refl) as Hst.
    match goal with |- context [if ?c then _ else _] => destruct c end;
      exact Hst. }
  destruct (negb (find_layer_at_pos _ _ =? -1)).
  - destruct (layers ed !! _) as [l|] eqn:El; [|discriminate]. injection Hm as <-.
    apply editor_inv_canvas; [|reflexivity].
    apply (editor_inv_store (set_current_layer_idx (find_layer_at_pos o ed) ed) _ _ l);
      auto. now apply (editor_inv_layer ed _ l H El).
  - injection Hm as <-. now apply editor_inv_canvas.
Qed.

Lemma select_layer_inv row ed : editor_inv ed -> editor_inv (select_layer row ed).
Proof. intros H. exact H. Qed.

Lemma toggle_control_point_mode_inv ed :
  editor_inv ed -> editor_inv (toggle_control_point_mode ed).
Proof. intros H. exact H. Qed.

Lemma toggle_grid_inv ed : editor_inv ed -> editor_inv (toggle_grid ed).
Proof. intros H. exact H. Qed.

Lemma adjust_grid_density_inv a ed : editor_inv ed -> editor_inv (adjust_grid_density a ed).
Proof. intros H. destruct a; exact H. Qed.

Lemma mouseReleaseEvent_inv b ed : editor_inv ed -> editor_inv (mouseReleaseEvent b ed).
Proof. intros H. destruct b; exact H. Qed.

Lemma initial_editor_inv : editor_inv initial_editor.
Proof.
  apply add_layer_inv. split; [constructor|]. split; [now left|].
  split; [split; reflexivity|]. intros i l Hl. discriminate.
Qed.

Lemma handle_inv ev ed ed' :
  editor_inv ed -> handle atan2 hypot extract_quad ev ed = Some ed' -> editor_inv ed'.
Proof.
  intros H Hh. destruct ev; simpl in Hh;
    try (injection Hh as <-).
  - now apply add_layer_inv.
  - now apply upload_image_inv.
  - now apply select_layer_inv.
  - now apply move_layer_up_inv.
  - now apply move_layer_down_inv.
  - now apply toggle_control_point_mode_inv.
  - now apply clear_points_inv.
  - now apply (calculate_vanishing_points_inv ed).
  - now apply toggle_grid_inv.
  - now apply adjust_grid_density_inv.
  - now apply scale_image_inv.
  - now apply (toggle_layer_drag_mode_inv atan2 extract_quad ed).
  - now apply (mousePressEvent_inv left_button pos ed).
  - now apply (mouseMoveEvent_inv atan2 pos ed).
  - now apply mouseReleaseEvent_inv.
  - now apply wheelEvent_inv.
Qed.

Lemma reachable_inv ed : reachable atan2 hypot extract_quad ed -> editor_inv ed.
Proof.
  induction 1 as [|ed ev ed' _ IH Hh]; [exact initial_editor_inv|].
  exact (handle_inv ev ed ed' IH Hh).
Qed.

End PressInvariant.

(** ** Reachable states: what the handlers keep *)

Section Reachable.

Import EditorOps CanvasOps EditorControls CanvasInput.
Variable atan2 hypot : float -> float -> float.
Variable extract_quad : QImage -> list QPoint -> Z -> Z -> option QImage.

Lemma reachable_run evs ed ed' :
  reachable atan2 hypot extract_quad ed ->
  run_events atan2 hypot extract_quad evs ed = Some ed' ->
  reachable atan2 hypot extract_quad ed'.
Proof.
  revert ed. induction evs as [|ev evs IH]; intros ed Hr H; simpl in H.
  - now injection H as <-.
  - bind_step H. apply (IH v); [|exact H]. exact (reachable_step _ _ _ ed ev v Hr E).
Qed.

(** X1: in every state the window can reach, each layer's marked points
    and its selection are the same list, of at most four points. *)
Theorem reachable_marks_are_the_selection ed :
  reachable atan2 hypot extract_quad ed ->
  Forall (fun l => points l = selection_points l /\ (length (points l) <= 4)%nat)
         (layers ed).
Proof.
  intros Hr. destruct (reachable_inv atan2 hypot extract_quad ed Hr) as (Hl & _).
  eapply Forall_impl; [exact Hl|]. intros l (I1 & I2 & _). now split.
Qed.

(** X2: in every reachable state the stored vanishing points are either
    none or exactly two, both outside the 10-pixel box at the origin. *)
Theorem reachable_vanishing_points_valid ed :
  reachable atan2 hypot extract_quad ed ->
  primary_vp (grid ed) = []
  \/ exists vp1 vp2, primary_vp (grid ed) = [vp1; vp2]
       /\ near_origin vp1 = false /\ near_origin vp2 = false.
Proof.
  intros Hr. destruct (reachable_inv atan2 hypot extract_quad ed Hr) as (_ & Hg & _).
  destruct Hg as [Hg|(vp1 & vp2 & Hg & V1 & V2)]; [now left|].
  right. exists vp1, vp2. split; [exact Hg|].
  unfold GridOps.valid_vp in V1, V2. unfold near_origin.
  split; [now apply negb_true_iff in V1|now apply negb_true_iff in V2].
Qed.

(** X3: in every reachable state the view scale and every layer's scale
    lie in [0.1, 5.0]; the division in [transform_pos] is never by zero. *)
Theorem reachable_scales_in_range ed :
  reachable atan2 hypot extract_quad ed ->
  PyFloat.within 0.1 5 (scale_factor (canvas ed))
  /\ (scale_factor (canvas ed) =? 0)%float = false
  /\ Forall (fun l => PyFloat.within 0.1 5 (layer_scale l)) (layers ed).
Proof.
  intros Hr. destruct (reachable_inv atan2 hypot extract_quad ed Hr) as (Hl & _ & Hc & _).
  split; [exact Hc|]. split; [now apply within_nonzero|].
  eapply Forall_impl; [exact Hl|]. intros l (_ & _ & _ & _ & _ & _ & I7 & _). exact I7.
Qed.

(** X4: no handler ever stores warp points or source vanishing points:
    in every reachable state they are empty on every layer, the original
    size is 0 x 0, and [find_closest_warp_point] finds nothing. *)
Theorem reachable_no_warp_points ed :
  reachable atan2 hypot extract_quad ed ->
  Forall (fun l => warp_points l = [] /\ source_vp l = []
                   /\ original_width l = 0 /\ original_height l = 0) (layers ed)
  /\ forall pos, find_closest_warp_point hypot pos ed = -1.
Proof.
  intros Hr. pose proof (reachable_inv atan2 hypot extract_quad ed Hr) as Hi.
  split.
  - destruct Hi as (Hl & _). eapply Forall_impl; [exact Hl|].
    intros l (_ & _ & I3 & I4 & I5 & I6 & _). auto.
  - intros pos. unfold find_closest_warp_point.
    destruct (get_current_layer ed) as [l|] eqn:Hc; [|reflexivity].
    destruct (editor_inv_current ed l Hi Hc) as (_ & _ & I3 & _).
    now rewrite I3.
Qed.


(** X6: under every event, not only the stack operations, each layer's
    [z_order] stays its list index, so [draw_layers] paints the visible
    layers in list order. *)
Theorem reachable_z_order_is_index ed :
  reachable atan2 hypot extract_quad ed ->
  z_indexed (layers ed)
  /\ draw_layers ed = filter (fun l => visible l = true) (layers ed).
Proof.
  intros Hr. destruct (reachable_inv atan2 hypot extract_quad ed Hr) as (_ & _ & _ & Hz).
  split; [exact Hz|]. unfold draw_layers. f_equal. apply sort_by_sorted.
  intros i j a b Hij Ha Hb. rewrite (Hz i a Ha), (Hz j b Hb). lia.
Qed.

(** X7: in every reachable state the grid overlay is either empty or
    exactly eight lines, each from a stored vanishing point that passed
    the validity test. *)
Theorem reachable_draw_grid_lines ed :
  reachable atan2 hypot extract_quad ed ->
  Forall (fun ln => near_origin (fst ln) = false) (draw_grid ed)
  /\ (draw_grid ed = [] \/ length (draw_grid ed) = 8%nat).
Proof.
  intros Hr. pose proof (reachable_inv atan2 hypot extract_quad ed Hr) as Hi.
  unfold draw_grid.
  destruct (get_current_layer ed) as [l|] eqn:Hc; [|split; [constructor|now left]].
  destruct (editor_inv_current ed l Hi Hc) as (_ & I2 & _).
  destruct (length (points l) <? 4)%nat eqn:Hlt; [split; [constructor|now left]|].
  apply Nat.ltb_ge in Hlt.
  destruct Hi as (_ & [Hg|(vp1 & vp2 & Hg & V1 & V2)] & _); rewrite Hg;
    [split; [constructor|now left]|].
  unfold GridOps.valid_vp in V1, V2.
  apply negb_true_iff in V1. apply negb_true_iff in V2.
  split.
  - unfold GridOps.calculate_radial_lines. apply Forall_app. split;
      apply List.Forall_map, Forall_true; intros p; simpl; unfold near_origin; simpl;
      assumption.
  - right. unfold GridOps.calculate_radial_lines.
    rewrite length_app, !length_map. lia.
Qed.

(** X8: the press handler leaves control-point mode only by placing the
    fourth point: if a press in that mode ends with the mode off, the
    current layer then has exactly four marked points, which are also
    its selection. *)
Theorem press_leaves_marking_at_four_points b pos ed ed' :
  reachable atan2 hypot extract_quad ed ->
  control_point_mode ed = true ->
  mousePressEvent hypot b pos ed = Some ed' ->
  control_point_mode ed' = false ->
  exists l, get_current_layer ed' = Some l
            /\ length (points l) = 4%nat /\ selection_points l = points l.
Proof.
  intros Hr Hmode Hm Hoff.
  pose proof (reachable_inv atan2 hypot extract_quad ed Hr) as H.
  unfold mousePressEvent in Hm.
  destruct (get_current_layer ed) as [cur|] eqn:Hcur; [|injection Hm as <-; congruence].
  bind_step Hm.
  match goal with E : transform_pos _ _ = Some ?sp |- _ => rename sp into o end.
  destruct (editor_inv_current ed cur H Hcur) as (I1 & _).
  destruct (negb b); [injection Hm as <-; congruence|].
  destruct (layer_drag_mode cur && _).
  { destruct (is_point_in_layer _ cur); injection Hm as <-; simpl in Hoff; congruence. }
  rewrite Hmode in Hm.
  destruct (negb (find_closest_control_point _ _ _ =? -1));
    [injection Hm as <-; simpl in Hoff; congruence|].
  destruct (negb (find_closest_point _ _ _ =? -1));
    [injection Hm as <-; simpl in Hoff; congruence|].
  bind_step Hm.
  match goal with p : (Z * QPoint)%type |- _ => destruct p as [edge_idx cp] end.
  destruct (negb (edge_idx =? -1)).
  { do 3 bind_step Hm. injection Hm as <-. simpl in Hoff. congruence. }
  destruct (negb (find_closest_warp_point _ _ _ =? -1));
    [injection Hm as <-; simpl in Hoff; congruence|].
  destruct (length (points cur) <? 4)%nat eqn:Hlt; [|injection Hm as <-; congruence].
  assert (Hsel : (length (selection_points cur) <? 4)%nat = true) by now rewrite <- I1.
  cbv zeta in Hm. simpl selection_points in Hm. rewrite Hsel in Hm.
  simpl points in Hm.
  destruct (length (points cur ++ [o]) =? 4)%nat eqn:H4;
    [|injection Hm as <-; simpl in Hoff; congruence].
  injection Hm as <-. apply Nat.eqb_eq in H4.
  eexists. split.
  - unfold toggle_control_point_mode.
    change (get_current_layer (set_control_point_mode ?v ?e)) with (get_current_layer e).
    now apply (get_current_layer_store ed cur).
  - simpl. split; [exact H4|now rewrite I1].
Qed.

End Reachable.

(** ** Hit testing *)

Section HitTesting.

Import EditorOps CanvasOps EditorControls CanvasInput.
Variable hypot : float -> float -> float.

Lemma find_layer_from_spec pos ls n :
  (find_layer_from pos ls n = -1
   /\ forall i l, (i < n)%nat -> ls !! i = Some l -> layer_contains pos l = false)
  \/ exists i l, find_layer_from pos ls n = Z.of_nat i /\ (i < n)%nat
       /\ ls !! i = Some l /\ layer_contains pos l = true
       /\ forall j l', (i < j < n)%nat -> ls !! j = Some l' ->
                       layer_contains pos l' = false.
Proof.
  induction n as [|n IH]; simpl.
  - left. split; [reflexivity|]. intros; lia.
  - destruct (ls !! n) as [l|] eqn:El.
    + destruct (layer_contains pos l) eqn:Hc.
      * right. exists n, l. repeat split; auto. intros; lia.
      * destruct IH as [[Hr Hall]|(i & l0 & Hr & Hi & Hl & Hc0 & Hall)].
        -- left. split; [exact Hr|]. intros i l0 Hi Hl.
           destruct (decide (i = n)) as [->|]; [congruence|]. apply (Hall i); [lia|done].
        -- right. exists i, l0. repeat split; auto. intros j l' Hj Hl'.
           destruct (decide (j = n)) as [->|]; [congruence|]. apply (Hall j); [lia|done].
    + destruct IH as [[Hr Hall]|(i & l0 & Hr & Hi & Hl & Hc0 & Hall)].
      * left. split; [exact Hr|]. intros i l0 Hi Hl.
        destruct (decide (i = n)) as [->|]; [congruence|]. apply (Hall i); [lia|done].
      * right. exists i, l0. repeat split; auto. intros j l' Hj Hl'.
        destruct (decide (j = n)) as [->|]; [congruence|]. apply (Hall j); [lia|done].
Qed.

(** X9: [find_layer_at_pos] returns -1 exactly when no visible layer
    with an image covers the position, and otherwise the index of the
    topmost one that does. *)
Theorem find_layer_at_pos_topmost pos ed :
  (find_layer_at_pos pos ed = -1
   /\ Forall (fun l => layer_contains pos l = false) (layers ed))
  \/ exists i l, find_layer_at_pos pos ed = Z.of_nat i
       /\ layers ed !! i = Some l /\ layer_contains pos l = true
       /\ forall j l', (i < j)%nat -> layers ed !! j = Some l' ->
                       layer_contains pos l' = false.
Proof.
  unfold find_layer_at_pos.
  destruct (find_layer_from_spec pos (layers ed) (length (layers ed)))
    as [[Hr Hall]|(i & l & Hr & Hi & Hl & Hc & Hall)].
  - left. split; [exact Hr|]. apply Forall_lookup. intros i l Hl.
    apply (Hall i); [|exact Hl]. now apply lookup_lt_Some in Hl.
  - right. exists i, l. repeat split; auto. intros j l' Hj Hl'.
    apply (Hall j); [|exact Hl']. apply lookup_lt_Some in Hl'. lia.
Qed.

Lemma ltb_asym x y : (x <? y)%float = true -> (y <? x)%float = false.
Proof. intros H. now apply ltb_false_of_leb, ltb_leb. Qed.

Lemma closest_scan_spec pos pts : forall i m c,
  (closest_scan hypot pos pts i m c = c
   /\ Forall (fun p => (point_distance hypot pos p <? m)%float = false) pts)
  \/ exists k p, closest_scan hypot pos pts i m c = i + Z.of_nat k
       /\ pts !! k = Some p
       /\ (point_distance hypot pos p <? m)%float = true
       /\ Forall (fun q => (point_distance hypot pos q <? point_distance hypot pos p)%float
                           = false) pts.
Proof.
  induction pts as [|p pts IH]; intros i m c; simpl.
  - left. split; [reflexivity|constructor].
  - destruct (point_distance hypot pos p <? m)%float eqn:Hlt.
    + destruct (IH (i + 1) (point_distance hypot pos p) i)
        as [[Hr Hall]|(k & q & Hr & Hq & Hqm & Hall)].
      * right. exists 0%nat, p. rewrite Hr. repeat split; auto; [lia|].
        constructor; [apply ltb_irrefl|exact Hall].
      * right. exists (S k), q. rewrite Hr. repeat split; auto; [lia| |].
        -- now apply (ltb_trans _ (point_distance hypot pos p)).
        -- constructor; [now apply ltb_asym|exact Hall].
    + destruct (IH (i + 1) m c) as [[Hr Hall]|(k & q & Hr & Hq & Hqm & Hall)].
      * left. split; [exact Hr|]. now constructor.
      * right. exists (S k), q. rewrite Hr. repeat split; auto; [lia|].
        constructor; [|exact Hall].
        destruct (point_distance hypot pos p <? point_distance hypot pos q)%float eqn:Hpq;
          [|reflexivity].
        rewrite (ltb_trans _ _ _ Hpq Hqm) in Hlt. discriminate.
Qed.

(** X10: the loop the three [find_closest_*] methods share returns -1
    exactly when no point is nearer than 10 pixels, and otherwise the
    index of a point nearer than 10 pixels than which no point is
    strictly nearer, whatever [hypot] computes, NaN included. *)
Theorem closest_scan_nearest pos pts :
  (closest_scan hypot pos pts 0 10 (-1) = -1
   /\ Forall (fun p => (point_distance hypot pos p <? 10)%float = false) pts)
  \/ exists k p, closest_scan hypot pos pts 0 10 (-1) = Z.of_nat k
       /\ pts !! k = Some p
       /\ (point_distance hypot pos p <? 10)%float = true
       /\ Forall (fun q => (point_distance hypot pos q <? point_distance hypot pos p)%float
                           = false) pts.
Proof.
  destruct (closest_scan_spec pos pts 0 10 (-1)) as [H|(k & p & Hr & H)];
    [now left|].
  right. exists k, p. split; [rewrite Hr; lia|exact H].
Qed.

Lemma edge_scan_spec pos sel todo : forall m c cp r rp,
  edge_scan pos sel todo m c cp = Some (r, rp) ->
  (r = c /\ rp = cp
   /\ Forall (fun j => forall d, edge_distance pos sel j = Some d -> (d <? m)%float = false)
             todo)
  \/ exists d p1 p2, r ∈ todo
       /\ py_getitem sel r = Some p1 /\ py_getitem sel ((r + 1) mod 4) = Some p2
       /\ d = distance_point_to_line pos p1 p2
       /\ (d <? m)%float = true
       /\ edge_projection pos p1 p2 = Some rp
       /\ Forall (fun j => forall d', edge_distance pos sel j = Some d' ->
                                      (d' <? d)%float = false) todo.
Proof.
  induction todo as [|i todo IH]; intros m c cp r rp H; simpl in H.
  - injection H as <- <-. left. repeat split; constructor.
  - do 2 bind_step H.
    match goal with
    | E1 : py_getitem sel i = Some ?a, E2 : py_getitem sel ((i + 1) mod 4) = Some ?b |- _ =>
        rename a into p1; rename b into p2
    end.
    assert (Hd : edge_distance pos sel i = Some (distance_point_to_line pos p1 p2)).
    { unfold edge_distance. now rewrite E, E0. }
    destruct (distance_point_to_line pos p1 p2 <? m)%float eqn:Hlt.
    + bind_step H.
      destruct (IH _ _ _ _ _ H)
        as [(-> & -> & Hall)|(d & q1 & q2 & Hin & Hq1 & Hq2 & -> & Hdm & Hproj & Hall)].
      * right. exists (distance_point_to_line pos p1 p2), p1, p2.
        repeat split; auto; [left|].
        constructor; [|exact Hall]. intros d' Hd'. rewrite Hd in Hd'.
        injection Hd' as <-. apply ltb_irrefl.
      * right. exists (distance_point_to_line pos q1 q2), q1, q2.
        repeat split; auto; [now right| |].
        -- now apply (ltb_trans _ (distance_point_to_line pos p1 p2)).
        -- constructor; [|exact Hall]. intros d' Hd'. rewrite Hd in Hd'.
           injection Hd' as <-. now apply ltb_asym.
    + destruct (IH _ _ _ _ _ H)
        as [(-> & -> & Hall)|(d & q1 & q2 & Hin & Hq1 & Hq2 & -> & Hdm & Hproj & Hall)].
      * left. repeat split. constructor; [|exact Hall]. intros d' Hd'.
        rewrite Hd in Hd'. now injection Hd' as <-.
      * right. exists (distance_point_to_line pos q1 q2), q1, q2.
        repeat split; auto; [now right|].
        constructor; [|exact Hall]. intros d' Hd'. rewrite Hd in Hd'.
        injection Hd' as <-.
        destruct (distance_point_to_line pos p1 p2 <? distance_point_to_line pos q1 q2)%float
          eqn:Hpq; [|reflexivity].
        rewrite (ltb_trans _ _ _ Hpq Hdm) in Hlt. discriminate.
Qed.

(** X11: what [find_closest_edge] returns is either -1 with the null
    point, when no edge of the selection is nearer than 10 pixels, or an
    edge index between 0 and 3 whose line is nearer than 10 pixels, than
    which no edge is strictly nearer, with the clamped projection onto
    that edge. *)
Theorem find_closest_edge_nearest pos ed l r rp :
  get_current_layer ed = Some l ->
  find_closest_edge pos ed = Some (r, rp) ->
  (r = -1 /\ rp = ⟨0, 0⟩
   /\ ((length (selection_points l) < 4)%nat
       \/ forall j d, 0 <= j <= 3 -> edge_distance pos (selection_points l) j = Some d ->
                      (d <? 10)%float = false))
  \/ (0 <= r <= 3
      /\ exists d p1 p2,
           py_getitem (selection_points l) r = Some p1
           /\ py_getitem (selection_points l) ((r + 1) mod 4) = Some p2
           /\ edge_distance pos (selection_points l) r = Some d
           /\ (d <? 10)%float = true
           /\ edge_projection pos p1 p2 = Some rp
           /\ forall j d', 0 <= j <= 3 ->
                edge_distance pos (selection_points l) j = Some d' ->
                (d' <? d)%float = false).
Proof.
  intros Hcur H. unfold find_closest_edge in H. rewrite Hcur in H.
  destruct (length (selection_points l) <? 4)%nat eqn:Hlen.
  - injection H as <- <-. left. apply Nat.ltb_lt in Hlen. auto.
  - assert (Hin : forall j : Z, 0 <= j <= 3 -> j ∈ [0; 1; 2; 3]).
    { intros j Hj. assert (j = 0 \/ j = 1 \/ j = 2 \/ j = 3) as [-> | [-> | [-> | ->]]] by lia;
        repeat constructor. }
    destruct (edge_scan_spec _ _ _ _ _ _ _ _ H)
      as [(-> & -> & Hall)|(d & p1 & p2 & Hr & Hp1 & Hp2 & -> & Hdm & Hproj & Hall)].
    + left. repeat split; auto. right. intros j d Hj Hd.
      rewrite Forall_forall in Hall. exact (Hall j (Hin j Hj) d Hd).
    + right. split.
      { repeat (apply elem_of_cons in Hr as [-> | Hr]; [lia|]).
        now apply elem_of_nil in Hr. }
      exists (distance_point_to_line pos p1 p2), p1, p2. repeat split; auto.
      * unfold edge_distance. now rewrite Hp1, Hp2.
      * intros j d' Hj Hd'. rewrite Forall_forall in Hall. exact (Hall j (Hin j Hj) d' Hd').
Qed.

End HitTesting.

(** ** Release, sorting, and moves in the stack *)

Section ReleaseSortMove.

Import EditorOps CanvasOps EditorControls CanvasInput.
Variable atan2 : float -> float -> float.


Lemma ltb_not_nan a b :
  (a <? b)%float = true -> is_nan a = false /\ is_nan b = false.
Proof.
  rewrite ltb_spec. unfold SFltb, is_nan. rewrite !FloatAxioms.eqb_spec. unfold SFeqb.
  destruct (SFcompare (Prim2SF a) (Prim2SF b)) as [c|] eqn:E; [|discriminate].
  intros _.
  rewrite (SFcompare_refl _ (SFcompare_Some_l _ _ _ E)).
  rewrite (SFcompare_refl _ (SFcompare_Some_r _ _ _ E)). now split.
Qed.

Lemma np_lt_asym a b : np_lt a b = true -> np_lt b a = false.
Proof.
  unfold np_lt. intros H. apply orb_true_iff in H as [H|H].
  - destruct (ltb_not_nan _ _ H) as [Ha Hb]. rewrite Ha, (ltb_asym _ _ H). reflexivity.
  - apply andb_true_iff in H as [Hb Ha]. apply negb_true_iff in Ha. rewrite Ha.
    destruct (b <? a)%float eqn:E; [|reflexivity].
    destruct (ltb_not_nan _ _ E). congruence.
Qed.

Lemma insert_by_ordered {A K} (lt : K -> K -> bool) (key : A -> K) a l :
  (forall x y, lt x y = true -> lt y x = false) ->
  neighbours_ordered lt (map key l) ->
  neighbours_ordered lt (map key (insert_by lt key a l)).
Proof.
  intros Hasym. induction l as [|b l IH]; intros H; [exact I|].
  cbn [insert_by]. destruct (lt (key b) (key a)) eqn:Hba.
  - destruct l as [|c l]; [simpl; auto|].
    destruct H as [Hcb H]. specialize (IH H). cbn [insert_by] in *.
    destruct (lt (key c) (key a)) eqn:Hca.
    + split; [exact Hcb|exact IH].
    + split; [now apply Hasym|exact IH].
  - split; [exact Hba|exact H].
Qed.

Lemma sort_by_ordered {A K} (lt : K -> K -> bool) (key : A -> K) l :
  (forall x y, lt x y = true -> lt y x = false) ->
  neighbours_ordered lt (map key (sort_by lt key l)).
Proof.
  intros Hasym. induction l as [|a l IH]; [exact I|].
  unfold sort_by in *. cbn [foldr]. now apply insert_by_ordered.
Qed.

(** X13: [sort_points] returns the points it was given, each as often
    as it came, with the angles about the centroid in order: no point's
    angle is before its predecessor's, NaN last, whatever [atan2]
    computes. *)
Theorem sort_points_sorts pts :
  sort_points atan2 pts ≡ₚ pts
  /\ neighbours_ordered np_lt
       (map (centroid_angle atan2 pts) (sort_points atan2 pts)).
Proof.
  split; [apply sort_by_Permutation|].
  exact (sort_by_ordered np_lt (centroid_angle atan2 pts) pts np_lt_asym).
Qed.

Lemma exchange_shape {A} (ls : list A) n a b a' b' :
  ls !! n = Some a -> ls !! S n = Some b ->
  <[S n := a']> (<[n := b']> ls) = take n ls ++ b' :: a' :: drop (S (S n)) ls.
Proof.
  revert ls. induction n as [|n IH]; intros [|x ls] Ha Hb; try discriminate.
  - destruct ls as [|y ls]; [discriminate|]. reflexivity.
  - change (x :: <[S n := a']> (<[n := b']> ls)
            = x :: (take n ls ++ b' :: a' :: drop (S (S n)) ls)).
    f_equal. now apply IH.
Qed.

Lemma exchange_back {A} (ls : list A) n a b x y :
  ls !! n = Some a -> ls !! S n = Some b ->
  <[n := a]> (<[S n := b]> (<[S n := x]> (<[n := y]> ls))) = ls.
Proof.
  revert ls. induction n as [|n IH]; intros [|u ls] Ha Hb; try discriminate.
  - destruct ls as [|v ls]; [discriminate|]. simpl in *. congruence.
  - change (u :: <[n := a]> (<[S n := b]> (<[S n := x]> (<[n := y]> ls))) = u :: ls).
    f_equal. now apply IH.
Qed.

Lemma exchange_forth {A} (ls : list A) n a b x y :
  ls !! n = Some a -> ls !! S n = Some b ->
  <[S n := b]> (<[n := a]> (<[n := x]> (<[S n := y]> ls))) = ls.
Proof.
  revert ls. induction n as [|n IH]; intros [|u ls] Ha Hb; try discriminate.
  - destruct ls as [|v ls]; [discriminate|]. simpl in *. congruence.
  - change (u :: <[S n := b]> (<[n := a]> (<[n := x]> (<[S n := y]> ls))) = u :: ls).
    f_equal. now apply IH.
Qed.

(** X14: on any stack and at any pair of neighbouring rows, moving the
    lower row's layer up and then down again, or the upper row's layer
    down and then up again, restores the editor exactly: order, z-orders
    and selected row. *)
Theorem move_layer_round_trip ed n :
  (S n < length (layers ed))%nat ->
  let lo := set_current_layer_idx (Z.of_nat n) ed in
  let hi := set_current_layer_idx (Z.of_nat (S n)) ed in
  move_layer_down (move_layer_up lo) = lo
  /\ move_layer_up (move_layer_down hi) = hi.
Proof.
  intros Hlen lo hi. subst lo hi.
  destruct (lookup_lt_is_Some_2 (layers ed) n ltac:(lia)) as [a Ha].
  destruct (lookup_lt_is_Some_2 (layers ed) (S n) Hlen) as [b Hb].
  split.
  - rewrite (move_layer_up_layers (set_current_layer_idx (Z.of_nat n) ed) n a b eq_refl Ha Hb).
    rewrite (move_layer_down_layers _ n (bump_z_order 1 a) (bump_z_order (-1) b)).
    + cbn [layers set_layers set_current_layer_idx].
      rewrite (bump_z_order_cancel 1 (-1)), (bump_z_order_cancel (-1) 1) by reflexivity.
      rewrite (exchange_back _ n a b) by assumption.
      destruct ed. unfold set_current_layer_idx, set_layers. simpl.
      f_equal. lia.
    + cbn [current_layer_idx set_current_layer_idx]. clear. lia.
    + cbn [layers set_layers set_current_layer_idx].
      apply list_lookup_insert_eq. rewrite length_insert. simpl. lia.
    + cbn [layers set_layers set_current_layer_idx].
      rewrite list_lookup_insert_ne by lia.
      apply list_lookup_insert_eq. simpl. lia.
  - rewrite (move_layer_down_layers (set_current_layer_idx (Z.of_nat (S n)) ed) n b a eq_refl Hb Ha).
    rewrite (move_layer_up_layers _ n (bump_z_order (-1) b) (bump_z_order 1 a)).
    + cbn [layers set_layers set_current_layer_idx].
      rewrite (bump_z_order_cancel 1 (-1)), (bump_z_order_cancel (-1) 1) by reflexivity.
      rewrite (exchange_forth _ n a b) by assumption.
      destruct ed. unfold set_current_layer_idx, set_layers. simpl.
      f_equal. lia.
    + cbn [current_layer_idx set_current_layer_idx]. clear. lia.
    + cbn [layers set_layers set_current_layer_idx].
      apply list_lookup_insert_eq. rewrite length_insert. simpl. lia.
    + cbn [layers set_layers set_current_layer_idx].
      rewrite list_lookup_insert_ne by lia.
      apply list_lookup_insert_eq. simpl. lia.
Qed.

Lemma exchange_Permutation (f : PerspectiveLayer -> PerspectiveLayer) ls n a b a' b' :
  ls !! n = Some a -> ls !! S n = Some b -> f a' = f a -> f b' = f b ->
  map f (<[S n := a']> (<[n := b']> ls)) ≡ₚ map f ls.
Proof.
  intros Ha Hb Hfa Hfb. rewrite (exchange_shape ls n a b a' b' Ha Hb).
  rewrite <- (take_drop_middle ls n a Ha) at 3.
  rewrite (drop_S ls b (S n) Hb).
  rewrite !map_app. cbn [map]. rewrite Hfa, Hfb.
  apply Permutation_app_head, Permutation_swap.
Qed.

(** X15: a move in the stack, up or down, neither drops nor duplicates
    a layer and changes no attribute of any layer other than [z_order]. *)
Theorem move_layer_keeps_layers ed :
  map forget_z_order (layers (move_layer_up ed)) ≡ₚ map forget_z_order (layers ed)
  /\ map forget_z_order (layers (move_layer_down ed)) ≡ₚ map forget_z_order (layers ed).
Proof.
  split.
  - destruct (move_layer_up_cases ed) as [->|(n & a & b & Hi & Ha & Hb)]; [reflexivity|].
    rewrite (move_layer_up_layers ed n a b Hi Ha Hb).
    cbn [layers set_layers set_current_layer_idx].
    now apply (exchange_Permutation forget_z_order _ n a b).
  - destruct (move_layer_down_cases ed) as [->|(n & a & b & Hi & Ha & Hb)]; [reflexivity|].
    rewrite (move_layer_down_layers ed n a b Hi Ha Hb).
    cbn [layers set_layers set_current_layer_idx].
    rewrite list_insert_insert_ne by lia.
    now apply (exchange_Permutation forget_z_order _ n b a).
Qed.

End ReleaseSortMove.

(** ** What the handlers leave alone *)

Section Frames.

Import EditorOps CanvasOps EditorControls CanvasInput.
Variable atan2 hypot : float -> float -> float.
Variable extract_quad : QImage -> list QPoint -> Z -> Z -> option QImage.

Lemma toggle_layer_drag_mode_canvas ed ed' :
  toggle_layer_drag_mode atan2 extract_quad ed = Some ed' -> canvas ed' = canvas ed.
Proof.
  unfold toggle_layer_drag_mode. intros H.
  destruct (get_current_layer ed); [|now injection H as <-].
  destruct (negb _); [now injection H as <-|].
  bind_step H. now injection H as <-.
Qed.

Lemma mouseMoveEvent_canvas pos ed ed' :
  mouseMoveEvent atan2 pos ed = Some ed' -> canvas ed' = canvas ed.
Proof.
  unfold mouseMoveEvent. intros H.
  destruct (get_current_layer ed); [|now injection H as <-].
  bind_step H.
  destruct (dragging_view _); [|now injection H as <-].
  destruct (negb _).
  { bind_step H.
    match goal with q : (PerspectiveLayer * PerspectiveGrid)%type |- _ =>
      destruct q as [l g] end.
    now injection H as <-. }
  destruct (negb _).
  { bind_step H.
    match goal with q : (PerspectiveLayer * PerspectiveGrid)%type |- _ =>
      destruct q as [l g] end.
    now injection H as <-. }
  destruct (negb _); [|now injection H as <-].
  do 3 bind_step H. now injection H as <-.
Qed.

Lemma mousePressEvent_pixmap b pos ed ed' :
  mousePressEvent hypot b pos ed = Some ed' ->
  pixmap (canvas ed') = pixmap (canvas ed).
Proof.
  unfold mousePressEvent. intros H.
  destruct (get_current_layer ed) as [cur|]; [|now injection H as <-].
  bind_step H.
  destruct (negb b); [now injection H as <-|].
  destruct (layer_drag_mode cur && _).
  { destruct (is_point_in_layer _ cur); now injection H as <-. }
  destruct (control_point_mode ed).
  { destruct (negb (find_closest_control_point _ _ _ =? -1)); [now injection H as <-|].
    destruct (negb (find_closest_point _ _ _ =? -1)); [now injection H as <-|].
    bind_step H.
    match goal with q : (Z * QPoint)%type |- _ => destruct q as [edge_idx cp] end.
    destruct (negb (edge_idx =? -1)).
    { do 3 bind_step H. injection H as <-.
      match goal with |- context [match ?o with Some _ => _ | None => _ end] =>
        now destruct o end. }
    destruct (negb (find_closest_warp_point _ _ _ =? -1)); [now injection H as <-|].
    destruct (length (points cur) <? 4)%nat; [|now injection H as <-].
    injection H as <-.
    match goal with |- context [if ?c then _ else _] => now destruct c end. }
  destruct (negb (find_layer_at_pos _ _ =? -1)).
  - destruct (layers ed !! _); [|discriminate]. now injection H as <-.
  - now injection H as <-.
Qed.

(** X17: once a background pixmap is loaded, no event replaces or drops
    it: only [upload_image] assigns it, and only while it is null. *)
Theorem handle_keeps_background ev ed ed' p :
  handle atan2 hypot extract_quad ev ed = Some ed' ->
  pixmap (canvas ed) = Some p -> pixmap (canvas ed') = Some p.
Proof.
  intros H Hp. destruct ev; simpl in H; try (injection H as <-); try exact Hp.
  - unfold upload_image. destruct (get_current_layer ed); [|exact Hp].
    destruct picked as [[img pix]|]; [|exact Hp]. simpl. rewrite Hp. exact Hp.
  - unfold move_layer_up. now destruct (_ && _).
  - unfold move_layer_down. now destruct (_ && _).
  - unfold clear_points. now destruct (get_current_layer ed).
  - unfold calculate_vanishing_points in H.
    destruct (get_current_layer ed); [|now injection H as <-].
    destruct (_ =? _)%nat; [|now injection H as <-].
    bind_step H.
    match goal with q : (list QPoint * PerspectiveGrid)%type |- _ =>
      destruct q as [r g] end.
    now injection H as <-.
  - now destruct answer.
  - now rewrite (toggle_layer_drag_mode_canvas ed ed' H).
  - now rewrite (mousePressEvent_pixmap _ _ _ _ H).
  - now rewrite (mouseMoveEvent_canvas _ _ _ H).
  - now destruct left_button.
  - unfold wheelEvent. destruct (get_current_layer ed); [|exact Hp].
    now destruct (_ && _).
Qed.

End Frames.

(** ** Grabbing and dragging *)

Section GrabAndDrag.

Import EditorOps CanvasOps EditorControls CanvasInput.
Variable atan2 hypot : float -> float -> float.

Lemma distance_point_to_line_degenerate pos p :
  distance_point_to_line pos p p = infinity.
Proof.
  unfold distance_point_to_line. now rewrite !Z.sub_diag.
Qed.

(** X18: [find_closest_edge] never picks an edge whose two ends
    coincide, so the test [dx != 0 or dy != 0] that [mousePressEvent]
    makes on the grabbed edge always holds: the stored grab offset is
    never left as it was. *)
Theorem grabbed_edge_has_direction pos ed l r rp :
  get_current_layer ed = Some l ->
  find_closest_edge pos ed = Some (r, rp) ->
  r <> -1 ->
  exists p1 p2,
    py_getitem (selection_points l) r = Some p1
    /\ py_getitem (selection_points l) ((r + 1) mod 4) = Some p2
    /\ p1 <> p2
    /\ grab_offset pos p1 p2 <> Some None.
Proof.
  intros Hcur H Hr. unfold find_closest_edge in H. rewrite Hcur in H.
  destruct (length (selection_points l) <? 4)%nat; [injection H as <- <-; lia|].
  destruct (edge_scan_spec _ _ _ _ _ _ _ _ H)
    as [(-> & _)|(d & p1 & p2 & _ & Hp1 & Hp2 & -> & Hdm & _)]; [lia|].
  assert (Hne : p1 <> p2).
  { intros <-. rewrite distance_point_to_line_degenerate in Hdm. discriminate. }
  exists p1, p2. repeat split; auto.
  unfold grab_offset.
  destruct (negb (QPoint.y p2 - QPoint.y p1 =? 0) || negb (QPoint.x p1 - QPoint.x p2 =? 0))
    eqn:G.
  - intros Hc. do 2 bind_step Hc. discriminate.
  - exfalso. apply orb_false_iff in G as [G1 G2].
    apply negb_false_iff, Z.eqb_eq in G1. apply negb_false_iff, Z.eqb_eq in G2.
    apply Hne. destruct p1, p2. simpl in *. f_equal; lia.
Qed.

(** X19: dragging an edge of the selection translates it: both ends
    move by the same whole-pixel vector and the other two corners stay,
    and the marked points follow the selection. *)
Theorem drag_edge_translates g off de pos l l' g' a b c d :
  selection_points l = [a; b; c; d] -> points l = selection_points l ->
  0 <= de <= 3 ->
  drag_edge g off de pos l = Some (l', g') ->
  points l' = selection_points l'
  /\ exists mx my,
       let mv p := ⟨QPoint.x p + mx, QPoint.y p + my⟩ in
       selection_points l' =
         if de =? 0 then [mv a; mv b; c; d]
         else if de =? 1 then [a; mv b; mv c; d]
         else if de =? 2 then [a; b; mv c; mv d]
         else [mv a; b; c; mv d].
Proof.
  intros Hsel Hpts Hde H. unfold drag_edge in H. rewrite Hpts, Hsel in H.
  assert (de = 0 \/ de = 1 \/ de = 2 \/ de = 3) as [-> | [-> | [-> | ->]]] by lia.
  all: do 2 bind_step H.
  all: match goal with
       | E1 : py_getitem _ _ = Some ?u, E2 : py_getitem _ _ = Some ?v |- _ =>
           injection E1 as <-; injection E2 as <-
       end.
  all: destruct (if _ : bool then _ else _) as [fdx fdy] in H.
  all: do 2 bind_step H.
  all: match goal with
       | E1 : PyFloat.to_int _ = Some ?u, E2 : PyFloat.to_int _ = Some ?v |- _ =>
           clear E1 E2; rename u into mx; rename v into my
       end.
  all: cbn [py_setitem py_getitem py_index length Z.of_nat] in H; simpl in H.
  all: bind_step H; injection H as <- <-.
  all: split; [reflexivity|].
  all: first [exists mx, my; reflexivity | exists my, mx; reflexivity].
Qed.


End GrabAndDrag.

(** ** Worked instances on the sample session *)

Lemma reachable_marks_are_the_selection_witness :
  exists ed,
    run_events axis_atan2 sqrt_hypot whole_box sample_session initial_editor = Some ed
    /\ Forall (fun l => points l = selection_points l /\ (length (points l) <= 4)%nat)
              (layers ed).
Proof.
  eexists. split; [vm_compute; reflexivity|].
  apply (reachable_marks_are_the_selection axis_atan2 sqrt_hypot whole_box).
  apply (reachable_run _ _ _ sample_session initial_editor);
    [apply reachable_initial|vm_compute; reflexivity].
Defined.

Lemma reachable_vanishing_points_valid_witness :
  exists ed,
    run_events axis_atan2 sqrt_hypot whole_box sample_session initial_editor = Some ed
    /\ (primary_vp (grid ed) = []
        \/ exists vp1 vp2, primary_vp (grid ed) = [vp1; vp2]
             /\ near_origin vp1 = false /\ near_origin vp2 = false).
Proof.
  eexists. split; [vm_compute; reflexivity|].
  apply (reachable_vanishing_points_valid axis_atan2 sqrt_hypot whole_box).
  apply (reachable_run _ _ _ sample_session initial_editor);
    [apply reachable_initial|vm_compute; reflexivity].
Defined.

Lemma reachable_scales_in_range_witness :
  exists ed,
    run_events axis_atan2 sqrt_hypot whole_box sample_session initial_editor = Some ed
    /\ PyFloat.within 0.1 5 (scale_factor (canvas ed))
    /\ (scale_factor (canvas ed) =? 0)%float = false
    /\ Forall (fun l => PyFloat.within 0.1 5 (layer_scale l)) (layers ed).
Proof.
  eexists. split; [vm_compute; reflexivity|].
  apply (reachable_scales_in_range axis_atan2 sqrt_hypot whole_box).
  apply (reachable_run _ _ _ sample_session initial_editor);
    [apply reachable_initial|vm_compute; reflexivity].
Defined.

Lemma reachable_no_warp_points_witness :
  exists ed,
    run_events axis_atan2 sqrt_hypot whole_box sample_session initial_editor = Some ed
    /\ Forall (fun l => warp_points l = [] /\ source_vp l = []
                        /\ original_width l = 0 /\ original_height l = 0) (layers ed)
    /\ forall pos, CanvasInput.find_closest_warp_point sqrt_hypot pos ed = -1.
Proof.
  eexists. split; [vm_compute; reflexivity|].
  apply (reachable_no_warp_points axis_atan2 sqrt_hypot whole_box).
  apply (reachable_run _ _ _ sample_session initial_editor);
    [apply reachable_initial|vm_compute; reflexivity].
Defined.


Lemma reachable_z_order_is_index_witness :
  exists ed,
    run_events axis_atan2 sqrt_hypot whole_box
      (EvAddLayer "a" :: EvAddLayer "b" :: EvMoveLayerDown :: sample_session)
      initial_editor = Some ed
    /\ z_indexed (layers ed)
    /\ EditorOps.draw_layers ed = filter (fun l => visible l = true) (layers ed).
Proof.
  eexists. split; [vm_compute; reflexivity|].
  apply (reachable_z_order_is_index axis_atan2 sqrt_hypot whole_box).
  apply (reachable_run _ _ _
           (EvAddLayer "a" :: EvAddLayer "b" :: EvMoveLayerDown :: sample_session)
           initial_editor);
    [apply reachable_initial|vm_compute; reflexivity].
Defined.

Lemma reachable_draw_grid_lines_witness :
  exists ed,
    run_events axis_atan2 sqrt_hypot whole_box sample_session initial_editor = Some ed
    /\ Forall (fun ln => near_origin (fst ln) = false) (CanvasOps.draw_grid ed)
    /\ (CanvasOps.draw_grid ed = [] \/ length (CanvasOps.draw_grid ed) = 8%nat).
Proof.
  eexists. split; [vm_compute; reflexivity|].
  apply (reachable_draw_grid_lines axis_atan2 sqrt_hypot whole_box).
  apply (reachable_run _ _ _ sample_session initial_editor);
    [apply reachable_initial|vm_compute; reflexivity].
Defined.

Lemma press_leaves_marking_at_four_points_witness :
  exists ed ed',
    run_events axis_atan2 sqrt_hypot whole_box (take 8 sample_session) initial_editor
    = Some ed
    /\ control_point_mode ed = true
    /\ CanvasInput.mousePressEvent sqrt_hypot true ⟨80, 250⟩ ed = Some ed'
    /\ control_point_mode ed' = false
    /\ exists l, EditorOps.get_current_layer ed' = Some l
                 /\ length (points l) = 4%nat /\ selection_points l = points l.
Proof.
  eexists. eexists. split; [vm_compute; reflexivity|].
  split; [reflexivity|]. split; [vm_compute; reflexivity|]. split; [reflexivity|].
  eapply (press_leaves_marking_at_four_points axis_atan2 sqrt_hypot whole_box
            true ⟨80, 250⟩).
  - apply (reachable_run _ _ _ (take 8 sample_session) initial_editor);
      [apply reachable_initial|vm_compute; reflexivity].
  - reflexivity.
  - vm_compute. reflexivity.
  - reflexivity.
Defined.

Lemma find_closest_edge_nearest_witness :
  CanvasInput.find_closest_edge ⟨397, 153⟩ dragged_editor = Some (0, ⟨396, 150⟩)
  /\ exists d p1 p2,
       py_getitem (selection_points dragged_layer) 0 = Some p1
       /\ py_getitem (selection_points dragged_layer) ((0 + 1) mod 4) = Some p2
       /\ edge_distance ⟨397, 153⟩ (selection_points dragged_layer) 0 = Some d
       /\ (d <? 10)%float = true
       /\ CanvasInput.edge_projection ⟨397, 153⟩ p1 p2 = Some ⟨396, 150⟩
       /\ forall j d', 0 <= j <= 3 ->
            edge_distance ⟨397, 153⟩ (selection_points dragged_layer) j = Some d' ->
            (d' <? d)%float = false.
Proof.
  split; [vm_compute; reflexivity|].
  destruct (find_closest_edge_nearest ⟨397, 153⟩ dragged_editor dragged_layer
              0 ⟨396, 150⟩) as [[H _]|[_ H]].
  - reflexivity.
  - vm_compute. reflexivity.
  - discriminate.
  - exact H.
Defined.


Lemma move_layer_round_trip_witness :
  let ed := EditorOps.add_layer "c" (EditorOps.add_layer "b" initial_editor) in
  let lo := set_current_layer_idx 1 ed in
  let hi := set_current_layer_idx 2 ed in
  EditorOps.move_layer_down (EditorOps.move_layer_up lo) = lo
  /\ EditorOps.move_layer_up (EditorOps.move_layer_down hi) = hi.
Proof.
  intros ed.
  apply (move_layer_round_trip ed 1%nat). simpl. lia.
Defined.

Lemma handle_keeps_background_witness :
  let again := EvUploadImage (Some ({| width := 64; height := 48 |},
                                    Some {| width := 64; height := 48 |})) in
  handle axis_atan2 sqrt_hypot whole_box again marked_editor
  = Some (EditorControls.upload_image
            (Some ({| width := 64; height := 48 |}, Some {| width := 64; height := 48 |}))
            marked_editor)
  /\ pixmap (canvas (EditorControls.upload_image
                       (Some ({| width := 64; height := 48 |},
                              Some {| width := 64; height := 48 |}))
                       marked_editor))
     = Some {| width := 800; height := 600 |}.
Proof.
  intros again. split; [reflexivity|].
  apply (handle_keeps_background axis_atan2 sqrt_hypot whole_box again marked_editor);
    reflexivity.
Defined.

Lemma grabbed_edge_has_direction_witness :
  CanvasInput.find_closest_edge ⟨397, 153⟩ dragged_editor = Some (0, ⟨396, 150⟩)
  /\ exists p1 p2,
       py_getitem (selection_points dragged_layer) 0 = Some p1
       /\ py_getitem (selection_points dragged_layer) ((0 + 1) mod 4) = Some p2
       /\ p1 <> p2
       /\ CanvasInput.grab_offset ⟨397, 153⟩ p1 p2 <> Some None.
Proof.
  split; [vm_compute; reflexivity|].
  apply (grabbed_edge_has_direction ⟨397, 153⟩ dragged_editor dragged_layer 0 ⟨396, 150⟩).
  - reflexivity.
  - vm_compute. reflexivity.
  - discriminate.
Defined.

Lemma drag_edge_translates_witness :
  exists l' g',
    CanvasOps.drag_edge dragged_grid ⟨0, 0⟩ 0 ⟨300, 140⟩ dragged_layer = Some (l', g')
    /\ selection_points l' = [⟨200, 140⟩; ⟨400, 140⟩; ⟨400, 250⟩; ⟨200, 250⟩]
    /\ points l' = selection_points l'
    /\ exists mx my,
         let mv p := ⟨QPoint.x p + mx, QPoint.y p + my⟩ in
         selection_points l' =
           if 0 =? 0 then [mv ⟨200, 150⟩; mv ⟨400, 150⟩; ⟨400, 250⟩; ⟨200, 250⟩]
           else if 0 =? 1 then [⟨200, 150⟩; mv ⟨400, 150⟩; mv ⟨400, 250⟩; ⟨200, 250⟩]
           else if 0 =? 2 then [⟨200, 150⟩; ⟨400, 150⟩; mv ⟨400, 250⟩; mv ⟨200, 250⟩]
           else [mv ⟨200, 150⟩; ⟨400, 150⟩; ⟨400, 250⟩; mv ⟨200, 250⟩].
Proof.
  eexists. eexists. split; [vm_compute; reflexivity|]. split; [reflexivity|].
  eapply (drag_edge_translates dragged_grid ⟨0, 0⟩ 0 ⟨300, 140⟩ dragged_layer).
  - reflexivity.
  - reflexivity.
  - lia.
  - vm_compute. reflexivity.
Defined.

